(** * Chain-backend bootstrap of lnd: credential discovery, host
      resolution and construction sequencing

    A shallow embedding of the three backend files

      - [backend_bitcoind.go]  (full node, RPC + ZMQ event push),
      - the btcd backend       (full node, RPC over a websocket stream),
      - [backend_neutrino.go]  (embedded light client),

    each of which provides [ParseRPCParams] and
    [NewChainControlFromConfig].  Go strings are byte strings and are
    modelled by [string]; Go's [int] is a 64-bit integer modelled by
    [Z] with its wrap-around written out; the collaborators of the
    builders (notifier, chain view, wallet, file system, network) are
    outcomes read from a [World] and every effect they perform is
    appended to a trace of [Event]s. *)

From Stdlib Require Import String Ascii List ZArith Lia Bool.
From Stdlib Require Import DecimalString.
Import ListNotations.

Local Open Scope list_scope.
Local Open Scope string_scope.

(** ** The parts of Go's standard library the backends call *)

Module GoStd.

(** [strings.Contains(s, ":")], for a one-byte separator. *)
Fixpoint containsByte (sep : ascii) (s : string) : bool :=
  match s with
  | EmptyString => false
  | String c s' => if Ascii.eqb c sep then true else containsByte sep s'
  end.

(** [strings.Split(s, ":")], for a one-byte separator: as many fields
    as there are separators, plus one. *)
Fixpoint splitByte (sep : ascii) (s : string) : list string :=
  match s with
  | EmptyString => [EmptyString]
  | String c s' =>
      if Ascii.eqb c sep then EmptyString :: splitByte sep s'
      else match splitByte sep s' with
           | h :: t => String c h :: t
           | [] => [String c EmptyString]
           end
  end.

(** The class [\s] of Go's regexp syntax: tab, newline, form feed,
    carriage return and space. *)
Definition isSpace (c : ascii) : bool :=
  match nat_of_ascii c with
  | 9 | 10 | 12 | 13 | 32 => true
  | _ => false
  end.

Fixpoint skipSpace (s : string) : string :=
  match s with
  | EmptyString => EmptyString
  | String c s' => if isSpace c then skipSpace s' else s
  end.

Fixpoint takeNonSpace (s : string) : string :=
  match s with
  | EmptyString => EmptyString
  | String c s' => if isSpace c then EmptyString
                   else String c (takeNonSpace s')
  end.

Fixpoint stripPrefix (p s : string) : option string :=
  match p, s with
  | EmptyString, _ => Some s
  | String a p', String b s' =>
      if Ascii.eqb a b then stripPrefix p' s' else None
  | String _ _, EmptyString => None
  end.

(** One attempt of the pattern [\s*key\s*=\s*([^\s]+)] at the head of
    [s], returning capture group 1.  The three starred classes are
    each followed by a byte outside the class, so the greedy match is
    the only one. *)
Definition matchHere (key s : string) : option string :=
  match stripPrefix key (skipSpace s) with
  | None => None
  | Some r1 =>
      match skipSpace r1 with
      | String c r2 =>
          if Ascii.eqb c "="
          then match takeNonSpace (skipSpace r2) with
               | EmptyString => None
               | v => Some v
               end
          else None
      | EmptyString => None
      end
  end.

(** The leftmost match of [(?m)^\s*key\s*=\s*([^\s]+)]: [bol] tells
    whether the current position is the start of the text or follows a
    newline, the only places where [^] holds in multi-line mode. *)
Fixpoint findFrom (key : string) (bol : bool) (s : string) : option string :=
  match (if bol then matchHere key s else None) with
  | Some v => Some v
  | None =>
      match s with
      | EmptyString => None
      | String c s' => findFrom key (Ascii.eqb c "010") s'
      end
  end.

(** [regexp.Compile(`(?m)^\s*key\s*=\s*([^\s]+)`)] followed by
    [FindSubmatch(contents)]: [None] is the nil slice, [Some v] a slice
    of length two whose element 1 is [v]. *)
Definition FindSubmatch (key contents : string) : option string :=
  findFrom key true contents.

(** [strconv.Atoi] on a 64-bit platform. *)
Definition digitVal (c : ascii) : option Z :=
  let n := nat_of_ascii c in
  if andb (Nat.leb 48 n) (Nat.leb n 57) then Some (Z.of_nat (n - 48)) else None.

Fixpoint parseDigits (acc : Z) (s : string) : option Z :=
  match s with
  | EmptyString => Some acc
  | String c s' =>
      match digitVal c with
      | Some d => parseDigits (10 * acc + d)%Z s'
      | None => None
      end
  end.

Definition minInt : Z := (- 2 ^ 63)%Z.
Definition maxInt : Z := (2 ^ 63 - 1)%Z.

Definition inRange (z : Z) : option Z :=
  if andb (Z.leb minInt z) (Z.leb z maxInt) then Some z else None.

Definition parseUnsigned (s : string) : option Z :=
  match s with
  | EmptyString => None
  | _ => parseDigits 0 s
  end.

Definition Atoi (s : string) : option Z :=
  match s with
  | String "+" s' =>
      match parseUnsigned s' with Some z => inRange z | None => None end
  | String "-" s' =>
      match parseUnsigned s' with Some z => inRange (- z) | None => None end
  | _ =>
      match parseUnsigned s with Some z => inRange z | None => None end
  end.

(** Arithmetic on Go's [int] wraps around at 64 bits. *)
Definition wrapInt (z : Z) : Z :=
  ((z - minInt) mod 2 ^ 64 + minInt)%Z.

(** The verb [%d] of [fmt.Sprintf]. *)
Definition formatInt (z : Z) : string :=
  NilZero.string_of_int (Z.to_int z).

(** [hex.DecodeString]: an odd length or a byte that is no hexadecimal
    digit is an error. *)
Definition hexVal (c : ascii) : option nat :=
  let n := nat_of_ascii c in
  if andb (Nat.leb 48 n) (Nat.leb n 57) then Some (n - 48)
  else if andb (Nat.leb 97 n) (Nat.leb n 102) then Some (n - 87)
  else if andb (Nat.leb 65 n) (Nat.leb n 70) then Some (n - 55)
  else None.

Fixpoint DecodeString (s : string) : option string :=
  match s with
  | EmptyString => Some EmptyString
  | String a (String b s') =>
      match hexVal a, hexVal b, DecodeString s' with
      | Some h, Some l, Some r => Some (String (ascii_of_nat (16 * h + l)) r)
      | _, _, _ => None
      end
  | String _ EmptyString => None
  end.

(** The digit of a nibble, in upper case, as the verb [%X] prints it. *)
Definition upperHexDigit (n : nat) : ascii :=
  ascii_of_nat (if Nat.ltb n 10 then 48 + n else 55 + n).

(** [strconv.IsPrint] on the runes up to U+00FF. *)
Definition isPrintLatin1 (n : nat) : bool :=
  (Nat.leb 32 n && Nat.leb n 126)
  || (Nat.leb 161 n && Nat.leb n 255 && negb (Nat.eqb n 173)).

(** The UTF-8 encoding of a rune up to U+00FF. *)
Definition utf8Latin1 (n : nat) : string :=
  if Nat.ltb n 128 then String (ascii_of_nat n) EmptyString
  else String (ascii_of_nat (192 + n / 64))
         (String (ascii_of_nat (128 + n mod 64)) EmptyString).

(** The verb [%#U] on a byte taken as a rune: [U+] and four
    hexadecimal digits, then the rune between single quotes when it
    is printable. *)
Definition formatUnicode (c : ascii) : string :=
  let n := nat_of_ascii c in
  "U+00" ++ String (upperHexDigit (n / 16))
              (String (upperHexDigit (n mod 16)) EmptyString)
  ++ (if isPrintLatin1 n then " '" ++ utf8Latin1 n ++ "'" else "").

(** [hex.InvalidByteError.Error] and [hex.ErrLength]. *)
Definition invalidByteError (c : ascii) : string :=
  "encoding/hex: invalid byte: " ++ formatUnicode c.

Definition errLength : string := "encoding/hex: odd length hex string".

(** The error of [hex.DecodeString] on malformed input: that of the
    first pair with a byte that is no hexadecimal digit; when every
    pair decodes and one byte is left over, that byte's error if it
    is no digit and the length error otherwise. *)
Fixpoint hexDecodeError (s : string) : string :=
  match s with
  | EmptyString => EmptyString
  | String a EmptyString =>
      match hexVal a with
      | None => invalidByteError a
      | Some _ => errLength
      end
  | String a (String b s') =>
      match hexVal a, hexVal b with
      | None, _ => invalidByteError a
      | Some _, None => invalidByteError b
      | Some _, Some _ => hexDecodeError s'
      end
  end.

(** Which of [strconv.ErrSyntax] and [strconv.ErrRange] a failed
    [strconv.Atoi] reports.  The digits are read from the left: a
    byte that is no digit is a syntax error, unless the digits before
    it already exceed 64 bits, which is a range error; digits that
    fit 64 bits but not the signed range are a range error too. *)
Definition maxUint64 : Z := (2 ^ 64 - 1)%Z.

Fixpoint digitsErrorKind (acc : Z) (s : string) : string :=
  match s with
  | EmptyString => "value out of range"
  | String c s' =>
      match digitVal c with
      | None => "invalid syntax"
      | Some d =>
          if Z.ltb maxUint64 (10 * acc + d)
          then "value out of range"
          else digitsErrorKind (10 * acc + d)%Z s'
      end
  end.

Definition unsignedErrorKind (s : string) : string :=
  match s with
  | EmptyString => "invalid syntax"
  | _ => digitsErrorKind 0 s
  end.

Definition atoiErrorKind (s : string) : string :=
  match s with
  | String "+" s' | String "-" s' => unsignedErrorKind s'
  | _ => unsignedErrorKind s
  end.

End GoStd.

Import GoStd.

(** ** Errors, effects and the outside world *)

(** A Go [error] is observed through its message. *)
Definition error := string.

Inductive res (A : Type) : Type :=
| Ok (a : A)
| Err (e : error).
Arguments Ok {A} a.
Arguments Err {A} e.

(** Every call to the file system, to the network, to a collaborator
    or to standard output leaves an event.  The lines the factories
    write through their loggers are not recorded: the trace says
    nothing about them. *)
Inductive Event : Type :=
| EvPrint (s : string)
| EvOpen (path : string)
| EvReadAll (path : string)
| EvClose (path : string)
| EvReadFile (path : string)
| EvMkdirAll (path : string)
| EvDbCreate (path : string)
| EvDbClose
| EvDial (addr : string)
| EvConnClose
| EvNewChainService
| EvSvcStart
| EvSvcStop
| EvNotifierNew
| EvChainViewNew
| EvChainSourceNew
| EvFeeEstimatorNew
| EvFeeEstimatorStart
| EvWalletControllerNew
| EvKeyRingNew
| EvLightningWalletNew
| EvWalletStartup.

Definition isFileIO (e : Event) : bool :=
  match e with
  | EvOpen _ | EvReadAll _ | EvClose _ | EvReadFile _
  | EvMkdirAll _ | EvDbCreate _ | EvDbClose => true
  | _ => false
  end.

Definition Event_eqb (a b : Event) : bool :=
  match a, b with
  | EvPrint x, EvPrint y | EvOpen x, EvOpen y | EvReadAll x, EvReadAll y
  | EvClose x, EvClose y | EvReadFile x, EvReadFile y
  | EvMkdirAll x, EvMkdirAll y | EvDbCreate x, EvDbCreate y
  | EvDial x, EvDial y => String.eqb x y
  | EvDbClose, EvDbClose | EvConnClose, EvConnClose
  | EvNewChainService, EvNewChainService | EvSvcStart, EvSvcStart
  | EvSvcStop, EvSvcStop | EvNotifierNew, EvNotifierNew
  | EvChainViewNew, EvChainViewNew | EvChainSourceNew, EvChainSourceNew
  | EvFeeEstimatorNew, EvFeeEstimatorNew
  | EvFeeEstimatorStart, EvFeeEstimatorStart
  | EvWalletControllerNew, EvWalletControllerNew
  | EvKeyRingNew, EvKeyRingNew
  | EvLightningWalletNew, EvLightningWalletNew
  | EvWalletStartup, EvWalletStartup => true
  | _, _ => false
  end.

(** The computations of the backends: they read the trace so far and
    return their value with the trace extended. *)
Definition IO (A : Type) : Type := list Event -> A * list Event.

Definition ret {A} (a : A) : IO A := fun t => (a, t).

Definition bind {A B} (m : IO A) (k : A -> IO B) : IO B :=
  fun t => let (a, t') := m t in k a t'.

Definition emit (e : Event) : IO unit := fun t => (tt, (t ++ [e])%list).

(** Sequencing of a fallible step: an error ends the function with
    that error, as the [if err != nil { return ..., err }] after the
    call does. *)
Definition bindRes {A B} (m : IO (res A)) (k : A -> IO (res B)) : IO (res B) :=
  bind m (fun r => match r with
                   | Ok a => k a
                   | Err e => ret (Err e)
                   end).

Declare Scope io_scope.
Delimit Scope io_scope with io.
Notation "x <- m ;; k" := (bind m (fun x => k))
  (at level 61, m at next level, right associativity) : io_scope.
Notation "m ;; k" := (bind m (fun _ => k))
  (at level 61, right associativity) : io_scope.
Notation "x <-? m ;; k" := (bindRes m (fun x => k))
  (at level 61, m at next level, right associativity) : io_scope.
Local Open Scope io_scope.

(** A call that can only fail or succeed, without a value. *)
Definition step (e : Event) (outcome : option error) : IO (res unit) :=
  emit e ;;
  ret (match outcome with Some err => Err err | None => Ok tt end).

(** ** Configuration and the package-level state *)

(** [chainCode] is an unsigned integer type of which two values are
    named. *)
Inductive chainCode : Type :=
| bitcoinChain
| litecoinChain
| otherChain (code : N).

Definition chainCode_eqb (a b : chainCode) : bool :=
  match a, b with
  | bitcoinChain, bitcoinChain | litecoinChain, litecoinChain => true
  | otherChain x, otherChain y => N.eqb x y
  | _, _ => false
  end.

Record chainConfig : Type := {
  Active : bool;
  ChainDir : string;
  SimNet : bool;
  RegTest : bool;
  MinHTLC : Z;
  BaseFee : Z;
  FeeRate : Z;
  TimeLockDelta : Z
}.

Record bitcoindConfig : Type := {
  bitcoind_Dir : string;
  bitcoind_RPCHost : string;
  bitcoind_RPCUser : string;
  bitcoind_RPCPass : string;
  bitcoind_ZMQPath : string
}.

Record btcdConfig : Type := {
  btcd_Dir : string;
  btcd_RPCHost : string;
  btcd_RPCUser : string;
  btcd_RPCPass : string;
  btcd_RPCCert : string;
  btcd_RawRPCCert : string
}.

Record neutrinoConfig : Type := {
  AddPeers : list string;
  ConnectPeers : list string
}.

Record config : Type := {
  Bitcoin : chainConfig;
  Litecoin : chainConfig;
  NeutrinoMode : neutrinoConfig
}.

(** [activeNetParams]: the chain parameters' name, the RPC port (kept
    as text) and the coin type. *)
Record netParams : Type := {
  Name : string;
  rpcPort : string;
  CoinType : Z
}.

(** What the backends read from outside their own files: package-level
    variables and constants declared elsewhere in the package, library
    functions on paths and [strconv.Quote] (whose escaping rests on
    Unicode's tables), the file system, the network, and whether each
    collaborator's constructor fails. *)
Record World : Type := {
  PrimaryChain : chainCode;
  chainCode_String : chainCode -> string;
  activeNetParams : netParams;
  defaultBitcoinStaticFeeRate : Z;
  defaultLitecoinStaticFeeRate : Z;
  normalizeNetwork : string -> string;
  path_Dir : string -> string;
  filepath_Join : string -> string -> string;
  strconv_Quote : string -> string;
  open_file : string -> option error;
  read_all : string -> res string;
  close_file : string -> option error;
  dial_fails : string -> bool;
  mkdirAll_err : string -> option error;
  walletdb_Create_err : string -> option error;
  NewChainService_err : option error;
  notifier_New_err : option error;
  chainView_New_err : option error;
  chainSource_New_err : option error;
  feeEstimator_New_err : option error;
  feeEstimator_Start_err : option error;
  btcwallet_New_err : option error;
  NewLightningWallet_err : option error;
  wallet_Startup_err : option error
}.

Definition nonEmpty (s : string) : bool := negb (String.eqb s "").

Definition newline : string := String "010" EmptyString.

Section Backends.

Variable w : World.

(** *** File access *)

(** [os.Open]: the empty path names no file. *)
Definition os_Open (path : string) : IO (res unit) :=
  emit (EvOpen path) ;;
  ret (if String.eqb path ""
       then Err "open : no such file or directory"
       else match open_file w path with
            | Some err => Err err
            | None => Ok tt
            end).

Definition ioutil_ReadAll (path : string) : IO (res string) :=
  emit (EvReadAll path) ;;
  ret (read_all w path).

(** [ioutil.ReadFile] opens, reads and closes in one call. *)
Definition ioutil_ReadFile (path : string) : IO (res string) :=
  emit (EvReadFile path) ;;
  ret (if String.eqb path ""
       then Err "open : no such file or directory"
       else match open_file w path with
            | Some err => Err err
            | None => read_all w path
            end).

(** [defer f.Close()]: the file is closed when the function returns,
    whatever it returns. *)
Definition deferClose {A} (path : string) (body : IO A) : IO A :=
  r <- body ;;
  emit (EvClose path) ;;
  ret r.

(** *** Credential discovery in the node's own configuration file *)

(** Lines 349-369: where the cookie is looked for.  The data
    directory is the one of the configuration file unless the file
    names another, and the chain's sub-directory follows. *)
Definition chainDirOf : string :=
  let name := Name (activeNetParams w) in
  if String.eqb name "testnet3" then "/testnet3/"
  else if String.eqb name "testnet4" then "/testnet4/"
  else if String.eqb name "regtest" then "/regtest/"
  else "/".

Definition cookiePathOf (bitcoindConfigPath configContents : string) : string :=
  let dataDir :=
    match FindSubmatch "datadir" configContents with
    | Some d => d
    | None => path_Dir w bitcoindConfigPath
    end in
  dataDir ++ chainDirOf ++ ".cookie".

(** [extractBitcoindRPCParams]: user, password and ZMQ path, or an
    error.  The regular expressions are constants that compile, so the
    error branches after [regexp.Compile] are never taken. *)
Definition extractBitcoindRPCParams (bitcoindConfigPath : string)
  : IO (res (string * string * string)) :=
  _ <-? os_Open bitcoindConfigPath ;;
  deferClose bitcoindConfigPath (
    configContents <-? ioutil_ReadAll bitcoindConfigPath ;;
    match FindSubmatch "zmqpubrawblock" configContents with
    | None => ret (Err "unable to find zmqpubrawblock in config")
    | Some zmqPath =>
        cookie <- ioutil_ReadFile
                    (cookiePathOf bitcoindConfigPath configContents) ;;
        match
          match cookie with
          | Ok c =>
              match splitByte ":" c with
              | [u; p] => Some (u, p)
              | _ => None
              end
          | Err _ => None
          end
        with
        | Some (u, p) => ret (Ok (u, p, zmqPath))
        | None =>
            match FindSubmatch "rpcuser" configContents with
            | None => ret (Err "unable to find rpcuser in config")
            | Some user =>
                match FindSubmatch "rpcpassword" configContents with
                | None => ret (Err "unable to find rpcpassword in config")
                | Some pass => ret (Ok (user, pass, zmqPath))
                end
            end
        end
    end).

(** [extractBtcdRPCParams]: user and password, or an error. *)
Definition extractBtcdRPCParams (btcdConfigPath : string)
  : IO (res (string * string)) :=
  _ <-? os_Open btcdConfigPath ;;
  deferClose btcdConfigPath (
    configContents <-? ioutil_ReadAll btcdConfigPath ;;
    match FindSubmatch "rpcuser" configContents with
    | None => ret (Err "unable to find rpcuser in config")
    | Some user =>
        match FindSubmatch "rpcpass" configContents with
        | None => ret (Err "unable to find rpcuser in config")
        | Some pass => ret (Ok (user, pass))
        end
    end).

(** *** ParseRPCParams *)

Definition daemonNameOf (net : chainCode) : string :=
  match net with
  | bitcoinChain => "btcd"
  | litecoinChain => "ltcd"
  | otherChain _ => ""
  end.

Definition simnetError (funcName : string) : error :=
  funcName ++ ": rpcuser and rpcpass must be set to your btcd " ++
  "node's RPC parameters for simnet mode".

Definition extractError (err : error) : error :=
  "unable to extract RPC credentials: " ++ err ++
  ", cannot start w/o RPC connection".

(** The receiver is a pointer: the configuration after the call is
    returned next to the error ([None] for [nil]). *)
Definition bitcoind_ParseRPCParams (conf : bitcoindConfig)
    (cConfig : chainConfig) (net : chainCode) (funcName : string)
  : IO (bitcoindConfig * option error) :=
  let daemonName := daemonNameOf net in
  if nonEmpty (bitcoind_RPCUser conf) && nonEmpty (bitcoind_RPCPass conf)
     && nonEmpty (bitcoind_ZMQPath conf)
  then ret (conf, None)
  else if nonEmpty (bitcoind_RPCUser conf) || nonEmpty (bitcoind_RPCPass conf)
          || nonEmpty (bitcoind_ZMQPath conf)
  then ret (conf, Some ("please set all or none of " ++
                        daemonName ++ ".rpcuser, " ++
                        daemonName ++ ".rpcpass, " ++
                        "and " ++ daemonName ++ ".zmqpath"))
  else
    let '(confDir, confFile) :=
      match net with
      | bitcoinChain => (bitcoind_Dir conf, "bitcoin")
      | litecoinChain => (bitcoind_Dir conf, "litecoin")
      | otherChain _ => ("", "")
      end in
    if SimNet cConfig
    then ret (conf, Some (simnetError funcName))
    else
      emit (EvPrint ("Attempting automatic RPC configuration to " ++
                     daemonName ++ newline)) ;;
      let confFile := filepath_Join w confDir (confFile ++ ".conf") in
      r <- extractBitcoindRPCParams confFile ;;
      match r with
      | Err err => ret (conf, Some (extractError err))
      | Ok (rpcUser, rpcPass, zmqPath) =>
          emit (EvPrint ("Automatically obtained " ++ daemonName ++
                         "'s RPC credentials" ++ newline)) ;;
          ret ({| bitcoind_Dir := bitcoind_Dir conf;
                  bitcoind_RPCHost := bitcoind_RPCHost conf;
                  bitcoind_RPCUser := rpcUser;
                  bitcoind_RPCPass := rpcPass;
                  bitcoind_ZMQPath := zmqPath |}, None)
      end.

Definition btcd_ParseRPCParams (conf : btcdConfig)
    (cConfig : chainConfig) (net : chainCode) (funcName : string)
  : IO (btcdConfig * option error) :=
  let daemonName := daemonNameOf net in
  if nonEmpty (btcd_RPCUser conf) && nonEmpty (btcd_RPCPass conf)
  then ret (conf, None)
  else if nonEmpty (btcd_RPCUser conf) || nonEmpty (btcd_RPCPass conf)
  then ret (conf, Some ("please set both or neither of " ++
                        daemonName ++ ".rpcuser, " ++
                        daemonName ++ ".rpcpass"))
  else
    let '(confDir, confFile) :=
      match net with
      | bitcoinChain => (btcd_Dir conf, "btcd")
      | litecoinChain => (btcd_Dir conf, "ltcd")
      | otherChain _ => ("", "")
      end in
    if SimNet cConfig
    then ret (conf, Some (simnetError funcName))
    else
      emit (EvPrint ("Attempting automatic RPC configuration to " ++
                     daemonName ++ newline)) ;;
      let confFile := filepath_Join w confDir (confFile ++ ".conf") in
      r <- extractBtcdRPCParams confFile ;;
      match r with
      | Err err => ret (conf, Some (extractError err))
      | Ok (rpcUser, rpcPass) =>
          emit (EvPrint ("Automatically obtained " ++ daemonName ++
                         "'s RPC credentials" ++ newline)) ;;
          ret ({| btcd_Dir := btcd_Dir conf;
                  btcd_RPCHost := btcd_RPCHost conf;
                  btcd_RPCUser := rpcUser;
                  btcd_RPCPass := rpcPass;
                  btcd_RPCCert := btcd_RPCCert conf;
                  btcd_RawRPCCert := btcd_RawRPCCert conf |}, None)
      end.

(** The light client needs no RPC parameters. *)
Definition neutrino_ParseRPCParams (b : neutrinoConfig)
    (cConfig : chainConfig) (net : chainCode) (funcName : string)
  : IO (neutrinoConfig * option error) :=
  ret (b, None).

(** *** The capability bundle *)

Record ForwardingPolicy : Type := {
  fp_MinHTLC : Z;
  fp_BaseFee : Z;
  fp_FeeRate : Z;
  fp_TimeLockDelta : Z
}.

Record ConnConfig : Type := {
  Host : string;
  Endpoint : string;
  User : string;
  Pass : string;
  Certificates : string;
  DisableTLS : bool;
  DisableConnectOnNew : bool;
  DisableAutoReconnect : bool;
  HTTPPostMode : bool
}.

(** A fee estimator is either the static one, holding its rate, or a
    live one, holding its connection, its fallback rate and whether
    [Start] has returned without error. *)
Inductive FeeEstimator : Type :=
| StaticFeeEstimator (feeRate : Z)
| BitcoindFeeEstimator (rpcConfig : ConnConfig) (fallBackFeeRate : Z)
    (started : bool)
| BtcdFeeEstimator (rpcConfig : ConnConfig) (fallBackFeeRate : Z)
    (started : bool).

Inductive ChainNotifier : Type :=
| BitcoindNotifier (rpcConfig : ConnConfig) (zmqPath : string)
| BtcdNotifier (rpcConfig : ConnConfig)
| NeutrinoNotifier.

Inductive FilteredChainView : Type :=
| BitcoindFilteredChainView (rpcConfig : ConnConfig) (zmqPath : string)
| BtcdFilteredChainView (rpcConfig : ConnConfig)
| CfFilteredChainView.

Inductive ChainSource : Type :=
| BitcoindClient (host user pass zmqPath : string)
| RPCClient (host user pass certs : string) (disableTLS : bool)
    (reconnectAttempts : Z)
| NeutrinoClient.

Record btcwalletConfig : Type := {
  PrivatePass : string;
  PublicPass : string;
  Birthday : Z;
  RecoveryWindow : Z;
  DataDir : string;
  NetParams : netParams;
  wc_FeeEstimator : option FeeEstimator;
  wc_CoinType : Z;
  wc_ChainSource : option ChainSource
}.

(** [btcwallet.New] returns a wallet controller built from its
    configuration. *)
Record BtcWallet : Type := { bw_cfg : btcwalletConfig }.

Inductive ChannelConstraints : Type :=
| defaultBtcChannelConstraints
| defaultLtcChannelConstraints.

Record LightningWallet : Type := {
  lw_Database : string;
  lw_Notifier : option ChainNotifier;
  lw_WalletController : BtcWallet;
  lw_Signer : option BtcWallet;
  lw_FeeEstimator : option FeeEstimator;
  lw_SecretKeyRing : BtcWallet * Z;
  lw_ChainIO : option BtcWallet;
  lw_DefaultConstraints : ChannelConstraints;
  lw_NetParams : netParams;
  lw_started : bool
}.

(** [chainControl]: interface and pointer fields are [None] while
    nil. *)
Record chainControl : Type := {
  routingPolicy : ForwardingPolicy;
  feeEstimator : option FeeEstimator;
  chainNotifier : option ChainNotifier;
  chainView : option FilteredChainView;
  msgSigner : option BtcWallet;
  signer : option BtcWallet;
  chainIO : option BtcWallet;
  wallet : option LightningWallet
}.

(** The clean-up closure, given by the calls it makes when invoked. *)
Definition CleanUp : Type := list Event.

(** The three results of [NewChainControlFromConfig]: a pointer to
    the bundle, the clean-up function and the error, each [None]
    when nil. *)
Definition GoResult : Type :=
  (option chainControl * option CleanUp * option error)%type.

(** [if err != nil { return nil, nil, err }] after a fallible call. *)
Definition orReturn {A} (m : IO (res A)) (k : A -> IO GoResult) : IO GoResult :=
  bind m (fun r => match r with
                   | Ok a => k a
                   | Err err => ret (None, None, Some err)
                   end).

Notation "x <-! m ;; k" := (orReturn m (fun x => k))
  (at level 61, m at next level, right associativity) : io_scope.

(** The arguments of the factory other than the receiver. *)
Record factoryArgs : Type := {
  cfg : config;
  chanDB : string;
  privateWalletPw : string;
  publicWalletPw : string;
  birthday : Z;
  recoveryWindow : Z
}.

Definition policyOf (c : chainConfig) : ForwardingPolicy :=
  {| fp_MinHTLC := MinHTLC c;
     fp_BaseFee := BaseFee c;
     fp_FeeRate := FeeRate c;
     fp_TimeLockDelta := TimeLockDelta c |}.

Definition emptyControl (p : ForwardingPolicy) (f : FeeEstimator)
  : chainControl :=
  {| routingPolicy := p;
     feeEstimator := Some f;
     chainNotifier := None;
     chainView := None;
     msgSigner := None;
     signer := None;
     chainIO := None;
     wallet := None |}.

(** The opening of all three factories: [cc := &chainControl{}] and
    the switch on the primary chain that sets the routing policy and
    the static fee estimator. *)
Definition initialControl (a : factoryArgs) : res chainControl :=
  match PrimaryChain w with
  | bitcoinChain =>
      Ok (emptyControl (policyOf (Bitcoin (cfg a)))
            (StaticFeeEstimator (defaultBitcoinStaticFeeRate w)))
  | litecoinChain =>
      Ok (emptyControl (policyOf (Litecoin (cfg a)))
            (StaticFeeEstimator (defaultLitecoinStaticFeeRate w)))
  | otherChain _ =>
      Err ("Default routing policy for chain " ++
           chainCode_String w (PrimaryChain w) ++ " is unknown")
  end.

Definition homeChainConfigOf (a : factoryArgs) : chainConfig :=
  if chainCode_eqb (PrimaryChain w) litecoinChain
  then Litecoin (cfg a) else Bitcoin (cfg a).

Definition initialWalletConfig (a : factoryArgs) (cc : chainControl)
  : btcwalletConfig :=
  {| PrivatePass := privateWalletPw a;
     PublicPass := publicWalletPw a;
     Birthday := birthday a;
     RecoveryWindow := recoveryWindow a;
     DataDir := ChainDir (homeChainConfigOf a);
     NetParams := activeNetParams w;
     wc_FeeEstimator := feeEstimator cc;
     wc_CoinType := CoinType (activeNetParams w);
     wc_ChainSource := None |}.

Definition withChainSource (c : btcwalletConfig) (s : ChainSource)
  : btcwalletConfig :=
  {| PrivatePass := PrivatePass c;
     PublicPass := PublicPass c;
     Birthday := Birthday c;
     RecoveryWindow := RecoveryWindow c;
     DataDir := DataDir c;
     NetParams := NetParams c;
     wc_FeeEstimator := wc_FeeEstimator c;
     wc_CoinType := wc_CoinType c;
     wc_ChainSource := Some s |}.

Definition withNotifier (cc : chainControl) (n : ChainNotifier) : chainControl :=
  {| routingPolicy := routingPolicy cc;
     feeEstimator := feeEstimator cc;
     chainNotifier := Some n;
     chainView := chainView cc;
     msgSigner := msgSigner cc;
     signer := signer cc;
     chainIO := chainIO cc;
     wallet := wallet cc |}.

Definition withChainView (cc : chainControl) (v : FilteredChainView)
  : chainControl :=
  {| routingPolicy := routingPolicy cc;
     feeEstimator := feeEstimator cc;
     chainNotifier := chainNotifier cc;
     chainView := Some v;
     msgSigner := msgSigner cc;
     signer := signer cc;
     chainIO := chainIO cc;
     wallet := wallet cc |}.

Definition withFeeEstimator (cc : chainControl) (f : FeeEstimator)
  : chainControl :=
  {| routingPolicy := routingPolicy cc;
     feeEstimator := Some f;
     chainNotifier := chainNotifier cc;
     chainView := chainView cc;
     msgSigner := msgSigner cc;
     signer := signer cc;
     chainIO := chainIO cc;
     wallet := wallet cc |}.

Definition withSigners (cc : chainControl) (wc : BtcWallet) : chainControl :=
  {| routingPolicy := routingPolicy cc;
     feeEstimator := feeEstimator cc;
     chainNotifier := chainNotifier cc;
     chainView := chainView cc;
     msgSigner := Some wc;
     signer := Some wc;
     chainIO := Some wc;
     wallet := wallet cc |}.

Definition withWallet (cc : chainControl) (lw : LightningWallet) : chainControl :=
  {| routingPolicy := routingPolicy cc;
     feeEstimator := feeEstimator cc;
     chainNotifier := chainNotifier cc;
     chainView := chainView cc;
     msgSigner := msgSigner cc;
     signer := signer cc;
     chainIO := chainIO cc;
     wallet := Some lw |}.

(** A failing call that prints before it returns its error. *)
Definition stepPrinting (e : Event) (outcome : option error) (msg : string)
  : IO (res unit) :=
  emit e ;;
  match outcome with
  | Some err => emit (EvPrint (msg ++ err ++ newline)) ;; ret (Err err)
  | None => ret (Ok tt)
  end.

(** The closing of all three factories, from [btcwallet.New] to the
    final [return cc, cleanUp, nil]. *)
Definition openWallet (a : factoryArgs) (cc : chainControl)
    (walletConfig : btcwalletConfig) (cleanUp : option CleanUp)
  : IO GoResult :=
  _ <-! stepPrinting EvWalletControllerNew (btcwallet_New_err w)
          "unable to create wallet controller: " ;;
  let wc := {| bw_cfg := walletConfig |} in
  let cc := withSigners cc wc in
  let channelConstraints :=
    if chainCode_eqb (PrimaryChain w) litecoinChain
    then defaultLtcChannelConstraints else defaultBtcChannelConstraints in
  emit EvKeyRingNew ;;
  let keyRing := (wc, CoinType (activeNetParams w)) in
  _ <-! stepPrinting EvLightningWalletNew (NewLightningWallet_err w)
          "unable to create wallet: " ;;
  _ <-! stepPrinting EvWalletStartup (wallet_Startup_err w)
          "unable to start wallet: " ;;
  let lw := {| lw_Database := chanDB a;
               lw_Notifier := chainNotifier cc;
               lw_WalletController := wc;
               lw_Signer := signer cc;
               lw_FeeEstimator := feeEstimator cc;
               lw_SecretKeyRing := keyRing;
               lw_ChainIO := chainIO cc;
               lw_DefaultConstraints := channelConstraints;
               lw_NetParams := activeNetParams w;
               lw_started := true |} in
  ret (Some (withWallet cc lw), cleanUp, None).

(** *** The bitcoind factory *)

Definition quote : string := String (ascii_of_nat 34) EmptyString.

(** The error of a failed [strconv.Atoi]: a [NumError] whose message
    quotes the input with [strconv.Quote]. *)
Definition atoiError (s : string) : error :=
  "strconv.Atoi: parsing " ++ strconv_Quote w s ++ ": " ++ atoiErrorKind s.

(** Lines 159-185: the host the RPC client connects to.  With a colon
    in [RPCHost] it is used as it stands; otherwise the port is the
    network's RPC port less two, and on bitcoin's regtest a failed
    dial replaces it by 18443. *)
Definition bitcoindHostOf (conf : bitcoindConfig) (a : factoryArgs)
  : IO (res string) :=
  if containsByte ":" (bitcoind_RPCHost conf)
  then ret (Ok (bitcoind_RPCHost conf))
  else
    match Atoi (rpcPort (activeNetParams w)) with
    | None => ret (Err (atoiError (rpcPort (activeNetParams w))))
    | Some rpcPort =>
        let rpcPort := wrapInt (rpcPort - 2) in
        let bitcoindHost :=
          bitcoind_RPCHost conf ++ ":" ++ formatInt rpcPort in
        if Active (Bitcoin (cfg a)) && RegTest (Bitcoin (cfg a))
        then
          emit (EvDial bitcoindHost) ;;
          if dial_fails w bitcoindHost
          then
            let rpcPort := 18443%Z in
            ret (Ok (bitcoind_RPCHost conf ++ ":" ++ formatInt rpcPort))
          else
            emit EvConnClose ;;
            ret (Ok bitcoindHost)
        else ret (Ok bitcoindHost)
    end.

(** The two branches of lines 228-262 have the same body: a new
    bitcoind-backed estimator with a fallback of 25 sat/vbyte, then
    its [Start]. *)
Definition startBitcoindFeeEstimator (rpcConfig : ConnConfig)
    (cc : chainControl) (k : chainControl -> IO GoResult) : IO GoResult :=
  let fallBackFeeRate := 25%Z in
  _ <-! step EvFeeEstimatorNew (feeEstimator_New_err w) ;;
  let cc := withFeeEstimator cc
              (BitcoindFeeEstimator rpcConfig fallBackFeeRate false) in
  _ <-! step EvFeeEstimatorStart (feeEstimator_Start_err w) ;;
  k (withFeeEstimator cc
       (BitcoindFeeEstimator rpcConfig fallBackFeeRate true)).

Definition bitcoind_NewChainControlFromConfig (conf : bitcoindConfig)
    (a : factoryArgs) : IO GoResult :=
  cc <-! ret (initialControl a) ;;
  let walletConfig := initialWalletConfig a cc in
  let cleanUp : option CleanUp := None in
  bitcoindHost <-! bitcoindHostOf conf a ;;
  let bitcoindUser := bitcoind_RPCUser conf in
  let bitcoindPass := bitcoind_RPCPass conf in
  let rpcConfig :=
    {| Host := bitcoindHost;
       Endpoint := "";
       User := bitcoindUser;
       Pass := bitcoindPass;
       Certificates := "";
       DisableTLS := true;
       DisableConnectOnNew := true;
       DisableAutoReconnect := false;
       HTTPPostMode := true |} in
  _ <-! step EvNotifierNew (notifier_New_err w) ;;
  let cc := withNotifier cc
              (BitcoindNotifier rpcConfig (bitcoind_ZMQPath conf)) in
  _ <-! step EvChainViewNew (chainView_New_err w) ;;
  let cc := withChainView cc
              (BitcoindFilteredChainView rpcConfig (bitcoind_ZMQPath conf)) in
  _ <-! step EvChainSourceNew (chainSource_New_err w) ;;
  let bitcoindConn :=
    BitcoindClient bitcoindHost bitcoindUser bitcoindPass
      (bitcoind_ZMQPath conf) in
  let walletConfig := withChainSource walletConfig bitcoindConn in
  if Active (Bitcoin (cfg a)) && negb (RegTest (Bitcoin (cfg a)))
  then startBitcoindFeeEstimator rpcConfig cc
         (fun cc => openWallet a cc walletConfig cleanUp)
  else if Active (Litecoin (cfg a))
  then startBitcoindFeeEstimator rpcConfig cc
         (fun cc => openWallet a cc walletConfig cleanUp)
  else openWallet a cc walletConfig cleanUp.

(** *** The btcd factory *)

(** Lines 152-170: the TLS certificate of the RPC connection, from the
    raw hexadecimal setting when there is one, from the certificate
    file otherwise. *)
Definition rpcCertOf (conf : btcdConfig) : IO (res string) :=
  if nonEmpty (btcd_RawRPCCert conf)
  then
    match DecodeString (btcd_RawRPCCert conf) with
    | Some rpcCert => ret (Ok rpcCert)
    | None => ret (Err (hexDecodeError (btcd_RawRPCCert conf)))
    end
  else
    _ <-? os_Open (btcd_RPCCert conf) ;;
    rpcCert <-? ioutil_ReadAll (btcd_RPCCert conf) ;;
    _ <-? step (EvClose (btcd_RPCCert conf)) (close_file w (btcd_RPCCert conf)) ;;
    ret (Ok rpcCert).

(** Lines 176-182. *)
Definition btcdHostOf (conf : btcdConfig) : string :=
  if containsByte ":" (btcd_RPCHost conf)
  then btcd_RPCHost conf
  else btcd_RPCHost conf ++ ":" ++ rpcPort (activeNetParams w).

Definition btcd_NewChainControlFromConfig (conf : btcdConfig)
    (a : factoryArgs) : IO GoResult :=
  cc <-! ret (initialControl a) ;;
  let walletConfig := initialWalletConfig a cc in
  let cleanUp : option CleanUp := None in
  rpcCert <-! rpcCertOf conf ;;
  let btcdHost := btcdHostOf conf in
  let btcdUser := btcd_RPCUser conf in
  let btcdPass := btcd_RPCPass conf in
  let rpcConfig :=
    {| Host := btcdHost;
       Endpoint := "ws";
       User := btcdUser;
       Pass := btcdPass;
       Certificates := rpcCert;
       DisableTLS := false;
       DisableConnectOnNew := true;
       DisableAutoReconnect := false;
       HTTPPostMode := false |} in
  _ <-! step EvNotifierNew (notifier_New_err w) ;;
  let cc := withNotifier cc (BtcdNotifier rpcConfig) in
  _ <-! step EvChainViewNew (chainView_New_err w) ;;
  let cc := withChainView cc (BtcdFilteredChainView rpcConfig) in
  _ <-! step EvChainSourceNew (chainSource_New_err w) ;;
  let chainRPC := RPCClient btcdHost btcdUser btcdPass rpcCert false 20 in
  let walletConfig := withChainSource walletConfig chainRPC in
  if negb (SimNet (Bitcoin (cfg a))) && negb (SimNet (Litecoin (cfg a)))
     && negb (RegTest (Bitcoin (cfg a))) && negb (RegTest (Litecoin (cfg a)))
  then
    let fallBackFeeRate := 25%Z in
    _ <-! step EvFeeEstimatorNew (feeEstimator_New_err w) ;;
    let cc := withFeeEstimator cc
                (BtcdFeeEstimator rpcConfig fallBackFeeRate false) in
    _ <-! step EvFeeEstimatorStart (feeEstimator_Start_err w) ;;
    let cc := withFeeEstimator cc
                (BtcdFeeEstimator rpcConfig fallBackFeeRate true) in
    openWallet a cc walletConfig cleanUp
  else openWallet a cc walletConfig cleanUp.

(** *** The neutrino factory *)

(** The three assignments to the neutrino package's tunables before
    [NewChainService] touch nothing the factory returns and are left
    out. *)
Definition neutrino_NewChainControlFromConfig (b : neutrinoConfig)
    (a : factoryArgs) : IO GoResult :=
  cc <-! ret (initialControl a) ;;
  let walletConfig := initialWalletConfig a cc in
  let cleanUp : option CleanUp := None in
  let neutrinoDbPath :=
    filepath_Join w (ChainDir (homeChainConfigOf a))
      (normalizeNetwork w (Name (activeNetParams w))) in
  _ <-! step (EvMkdirAll neutrinoDbPath) (mkdirAll_err w neutrinoDbPath) ;;
  let dbName := filepath_Join w neutrinoDbPath "neutrino.db" in
  _ <-! step (EvDbCreate dbName) (walletdb_Create_err w dbName) ;;
  _ <-! step EvNewChainService
          (match NewChainService_err w with
           | Some err => Some ("unable to create neutrino: " ++ err)
           | None => None
           end) ;;
  emit EvSvcStart ;;
  _ <-! step EvNotifierNew (notifier_New_err w) ;;
  let cc := withNotifier cc NeutrinoNotifier in
  _ <-! step EvChainViewNew (chainView_New_err w) ;;
  let cc := withChainView cc CfFilteredChainView in
  emit EvChainSourceNew ;;
  let walletConfig := withChainSource walletConfig NeutrinoClient in
  let cleanUp : option CleanUp := Some [EvSvcStop; EvDbClose] in
  openWallet a cc walletConfig cleanUp.

End Backends.

(** *** The three variants behind one interface *)

Inductive backendConfig : Type :=
| BitcoindBackend (conf : bitcoindConfig)
| BtcdBackend (conf : btcdConfig)
| NeutrinoBackend (conf : neutrinoConfig).

Definition NewChainControlFromConfig (w : World) (b : backendConfig)
    (a : factoryArgs) : IO GoResult :=
  match b with
  | BitcoindBackend conf => bitcoind_NewChainControlFromConfig w conf a
  | BtcdBackend conf => btcd_NewChainControlFromConfig w conf a
  | NeutrinoBackend conf => neutrino_NewChainControlFromConfig w conf a
  end.

Definition ParseRPCParams (w : World) (b : backendConfig)
    (cConfig : chainConfig) (net : chainCode) (funcName : string)
  : IO (backendConfig * option error) :=
  match b with
  | BitcoindBackend conf =>
      r <- bitcoind_ParseRPCParams w conf cConfig net funcName ;;
      ret (BitcoindBackend (fst r), snd r)
  | BtcdBackend conf =>
      r <- btcd_ParseRPCParams w conf cConfig net funcName ;;
      ret (BtcdBackend (fst r), snd r)
  | NeutrinoBackend conf =>
      r <- neutrino_ParseRPCParams conf cConfig net funcName ;;
      ret (NeutrinoBackend (fst r), snd r)
  end.

(** ** Vocabulary of the properties *)

(** A bundle is populated when none of its capabilities is nil. *)
Definition populated (cc : chainControl) : bool :=
  match feeEstimator cc, chainNotifier cc, chainView cc,
        msgSigner cc, signer cc, chainIO cc, wallet cc with
  | Some _, Some _, Some _, Some _, Some _, Some _, Some _ => true
  | _, _, _, _, _, _, _ => false
  end.

(** The two shapes a factory may return: an error alone, or a
    populated bundle without error. *)
Definition allOrNothing (r : GoResult) : Prop :=
  match r with
  | (None, None, Some _) => True
  | (Some cc, _, None) => populated cc = true
  | _ => False
  end.

(** The static rate of the primary chain. *)
Definition defaultStaticFeeRate (w : World) : Z :=
  match PrimaryChain w with
  | litecoinChain => defaultLitecoinStaticFeeRate w
  | _ => defaultBitcoinStaticFeeRate w
  end.

(** The credential fields a variant needs, as it holds them. *)
Definition requiredFields (b : backendConfig) : list string :=
  match b with
  | BitcoindBackend conf =>
      [bitcoind_RPCUser conf; bitcoind_RPCPass conf; bitcoind_ZMQPath conf]
  | BtcdBackend conf => [btcd_RPCUser conf; btcd_RPCPass conf]
  | NeutrinoBackend _ => []
  end.

Definition allSet (b : backendConfig) : bool :=
  forallb nonEmpty (requiredFields b).

Definition someSet (b : backendConfig) : bool :=
  existsb nonEmpty (requiredFields b).

(** A simulation or regression-test network, by the four flags of the
    configuration. *)
Definition isPrivateNetwork (c : config) : bool :=
  SimNet (Bitcoin c) || SimNet (Litecoin c)
  || RegTest (Bitcoin c) || RegTest (Litecoin c).

Definition isLive (f : FeeEstimator) : bool :=
  match f with
  | StaticFeeEstimator _ => false
  | BitcoindFeeEstimator _ _ _ | BtcdFeeEstimator _ _ _ => true
  end.

(** A live estimator with the fallback rate [fb], started. *)
Definition isStartedLive (fb : Z) (f : option FeeEstimator) : bool :=
  match f with
  | Some (BitcoindFeeEstimator _ r true)
  | Some (BtcdFeeEstimator _ r true) => Z.eqb r fb
  | _ => false
  end.

(** Which configurations end with a live estimator, variant by
    variant. *)
Definition usesLiveEstimator (b : backendConfig) (c : config) : bool :=
  match b with
  | NeutrinoBackend _ => false
  | BtcdBackend _ => negb (isPrivateNetwork c)
  | BitcoindBackend _ =>
      (Active (Bitcoin c) && negb (RegTest (Bitcoin c)))
      || Active (Litecoin c)
  end.

Definition occurs (e : Event) (l : list Event) : bool :=
  existsb (Event_eqb e) l.

(** [precedes x y l]: no [y] occurs in [l] before the first [x]. *)
Fixpoint precedes (x y : Event) (l : list Event) : bool :=
  match l with
  | [] => true
  | e :: l' =>
      if Event_eqb e x then true
      else if Event_eqb e y then false
      else precedes x y l'
  end.

(** *** Configuration text made of [key=value] lines *)

Definition noSpace (s : string) : bool :=
  negb (existsb isSpace (list_ascii_of_string s)).

Definition isKey (s : string) : bool :=
  noSpace s && negb (containsByte "=" s).

Definition isValue (s : string) : bool :=
  noSpace s && nonEmpty s.

Definition wellFormedSetting (kv : string * string) : bool :=
  isKey (fst kv) && isValue (snd kv).

Fixpoint renderConf (l : list (string * string)) : string :=
  match l with
  | [] => EmptyString
  | (k, v) :: l' => k ++ "=" ++ v ++ newline ++ renderConf l'
  end.

(** No byte of [s] is a line feed. *)
Definition noNewline (s : string) : Prop :=
  forall c, In c (list_ascii_of_string s) -> Ascii.eqb c "010" = false.

Fixpoint lookupFirst (key : string) (l : list (string * string))
  : option string :=
  match l with
  | [] => None
  | (k, v) :: l' => if String.eqb k key then Some v else lookupFirst key l'
  end.

(** *** A concrete world *)

Fixpoint lookupFile (files : list (string * string)) (path : string)
  : option string :=
  match files with
  | [] => None
  | (p, c) :: files' =>
      if String.eqb p path then Some c else lookupFile files' path
  end.

(** The part of a path before its last slash. *)
Fixpoint beforeLastSlash (s : string) : option string :=
  match s with
  | EmptyString => None
  | String c s' =>
      match beforeLastSlash s' with
      | Some d => Some (String c d)
      | None => if Ascii.eqb c "/" then Some EmptyString else None
      end
  end.

Definition dirOfCleanPath (s : string) : string :=
  match beforeLastSlash s with
  | Some EmptyString => "/"
  | Some d => d
  | None => "."
  end.

(** A world with the given files and nothing else on disk, in which a
    dial fails or not as told, the wallet's start-up ends as told and
    every other collaborator succeeds.  Its [strconv_Quote] is the
    library's on the texts met here, printable ASCII without quote or
    backslash. *)
Definition worldWith (chain : chainCode) (net : netParams)
    (files : list (string * string)) (dialFails : bool)
    (startup : option error) : World :=
  {| PrimaryChain := chain;
     chainCode_String := fun c =>
       match c with
       | bitcoinChain => "bitcoin"
       | litecoinChain => "litecoin"
       | otherChain _ => "kekcoin"
       end;
     activeNetParams := net;
     defaultBitcoinStaticFeeRate := 50;
     defaultLitecoinStaticFeeRate := 200;
     normalizeNetwork := fun n => n;
     path_Dir := dirOfCleanPath;
     filepath_Join := fun a b => a ++ "/" ++ b;
     strconv_Quote := fun s => quote ++ s ++ quote;
     open_file := fun p =>
       match lookupFile files p with
       | Some _ => None
       | None => Some ("open " ++ p ++ ": no such file or directory")
       end;
     read_all := fun p =>
       match lookupFile files p with
       | Some c => Ok c
       | None => Err ("read " ++ p ++ ": bad file descriptor")
       end;
     close_file := fun _ => None;
     dial_fails := fun _ => dialFails;
     mkdirAll_err := fun _ => None;
     walletdb_Create_err := fun _ => None;
     NewChainService_err := None;
     notifier_New_err := None;
     chainView_New_err := None;
     chainSource_New_err := None;
     feeEstimator_New_err := None;
     feeEstimator_Start_err := None;
     btcwallet_New_err := None;
     NewLightningWallet_err := None;
     wallet_Startup_err := startup |}.

Definition testnet3 : netParams :=
  {| Name := "testnet3"; rpcPort := "18334"; CoinType := 1 |}.

Definition regtest : netParams :=
  {| Name := "regtest"; rpcPort := "18334"; CoinType := 1 |}.

Definition simnet : netParams :=
  {| Name := "simnet"; rpcPort := "18556"; CoinType := 115 |}.

Definition chainConfigOf (active simNet regTest : bool) : chainConfig :=
  {| Active := active;
     ChainDir := "/home/u/.lnd/data/chain/bitcoin";
     SimNet := simNet;
     RegTest := regTest;
     MinHTLC := 1000;
     BaseFee := 1000;
     FeeRate := 1;
     TimeLockDelta := 144 |}.

Definition inactiveChain : chainConfig := chainConfigOf false false false.

Definition argsWith (bitcoin litecoin : chainConfig) : factoryArgs :=
  {| cfg := {| Bitcoin := bitcoin;
               Litecoin := litecoin;
               NeutrinoMode := {| AddPeers := []; ConnectPeers := [] |} |};
     chanDB := "channel.db";
     privateWalletPw := "hello";
     publicWalletPw := "public";
     birthday := 0;
     recoveryWindow := 0 |}.

Definition bitcoindConfOf (host user pass zmq : string) : bitcoindConfig :=
  {| bitcoind_Dir := "/home/u/.bitcoin";
     bitcoind_RPCHost := host;
     bitcoind_RPCUser := user;
     bitcoind_RPCPass := pass;
     bitcoind_ZMQPath := zmq |}.

Definition btcdConfOf (host user pass cert rawCert : string) : btcdConfig :=
  {| btcd_Dir := "/home/u/.btcd";
     btcd_RPCHost := host;
     btcd_RPCUser := user;
     btcd_RPCPass := pass;
     btcd_RPCCert := cert;
     btcd_RawRPCCert := rawCert |}.

Definition neutrinoConf : neutrinoConfig :=
  {| AddPeers := []; ConnectPeers := ["faucet.lightning.community"] |}.

(** The estimator of the bundle a factory returned, if it returned
    one. *)
Definition feeEstimatorOf (r : GoResult) : option FeeEstimator :=
  match fst (fst r) with
  | Some cc => feeEstimator cc
  | None => None
  end.

(** Bitcoind on testnet with every collaborator succeeding. *)
Definition bitcoindTestnetRun : GoResult * list Event :=
  NewChainControlFromConfig
    (worldWith bitcoinChain testnet3 [] false None)
    (BitcoindBackend
       (bitcoindConfOf "localhost" "alice" "secret" "tcp://127.0.0.1:28332"))
    (argsWith (chainConfigOf true false false) inactiveChain) [].

(** A bitcoin.conf and a cookie next to it. *)
Definition confPath : string := "/home/u/.bitcoin/bitcoin.conf".

Definition cookiePath : string := "/home/u/.bitcoin/testnet3/.cookie".

Definition confNoZmq : string :=
  renderConf [("rpcuser", "alice"); ("rpcpassword", "secret")].

Definition confWithZmq : string :=
  renderConf [("server", "1"); ("rpcuser", "alice");
              ("rpcpassword", "secret");
              ("zmqpubrawblock", "tcp://127.0.0.1:28332")].

Definition confShadowed : string :=
  renderConf [("rpcuser", "eve"); ("rpcuser", "alice");
              ("rpcpassword", "secret");
              ("zmqpubrawblock", "tcp://127.0.0.1:28332")].

Definition testnetWorld (files : list (string * string)) : World :=
  worldWith bitcoinChain testnet3 files false None.

Definition btcdConfPath : string := "/home/u/.btcd/btcd.conf".

Definition certPath : string := "/home/u/.btcd/rpc.cert".

Definition confUserOnly : string := renderConf [("rpcuser", "alice")].

(** The certificate bytes the notifier of a returned bundle was given. *)
Definition certificatesOf (r : GoResult) : option string :=
  match fst (fst r) with
  | Some cc =>
      match chainNotifier cc with
      | Some (BtcdNotifier rpcConfig) => Some (Certificates rpcConfig)
      | _ => None
      end
  | None => None
  end.

(** ** Further vocabulary *)

(** Every byte of [s] is in the class [\s]. *)
Definition allSpace (s : string) : bool :=
  forallb isSpace (list_ascii_of_string s).

(** How many times the byte [sep] occurs in [s]. *)
Fixpoint countByte (sep : ascii) (s : string) : nat :=
  match s with
  | EmptyString => 0
  | String c s' =>
      (if Ascii.eqb c sep then 1 else 0) + countByte sep s'
  end.

(** The full-node variants, which hold credentials. *)
Definition isFullNode (b : backendConfig) : bool :=
  match b with
  | BitcoindBackend _ | BtcdBackend _ => true
  | NeutrinoBackend _ => false
  end.

Definition isDial (e : Event) : bool :=
  match e with
  | EvDial _ => true
  | _ => false
  end.

(** What [extractBitcoindRPCParams] returns once the cookie is out of
    the way: the outcome of the three scans of the text. *)
Definition bitcoindScan (contents : string) : res (string * string * string) :=
  match FindSubmatch "zmqpubrawblock" contents,
        FindSubmatch "rpcuser" contents,
        FindSubmatch "rpcpassword" contents with
  | None, _, _ => Err "unable to find zmqpubrawblock in config"
  | Some _, None, _ => Err "unable to find rpcuser in config"
  | Some _, Some _, None => Err "unable to find rpcpassword in config"
  | Some zmq, Some u, Some p => Ok (u, p, zmq)
  end.

(** *** The name resolver handed to the light client *)

Section NameResolver.

(** [cfg.net.LookupHost] and [net.ParseIP]; an address that does not
    parse gives a nil IP. *)
Variable IP : Type.
Variable LookupHost : string -> res (list string).
Variable ParseIP : string -> option IP.

(** Lines 119-136 of the neutrino backend: the loop appends every
    address that parses to [ips] and skips the others. *)
Definition NameResolver (host : string) : res (list IP) :=
  match LookupHost host with
  | Err err => Err err
  | Ok addrs =>
      Ok (fold_left
            (fun ips strIP =>
               match ParseIP strIP with
               | None => ips
               | Some ip => (ips ++ [ip])%list
               end)
            addrs [])
  end.

End NameResolver.

(** Whether [os.Open] succeeds on [path]. *)
Definition opens (w : World) (path : string) : bool :=
  negb (String.eqb path "")
  && match open_file w path with
     | None => true
     | Some _ => false
     end.

(** The content of the cookie when [ioutil.ReadFile] can read it. *)
Definition cookieOf (w : World) (path contents : string) : option string :=
  if opens w (cookiePathOf w path contents)
  then match read_all w (cookiePathOf w path contents) with
       | Ok c => Some c
       | Err _ => None
       end
  else None.

(** Whether the bitcoind factory gets as far as probing the node: the
    primary chain is known, the host has no port, the RPC port is a
    number and bitcoin runs on regtest. *)
Definition probes (w : World) (b : backendConfig) (a : factoryArgs) : bool :=
  match b with
  | BitcoindBackend conf =>
      match initialControl w a, Atoi (rpcPort (activeNetParams w)) with
      | Ok _, Some _ =>
          negb (containsByte ":" (bitcoind_RPCHost conf))
          && Active (Bitcoin (cfg a)) && RegTest (Bitcoin (cfg a))
      | _, _ => false
      end
  | _ => false
  end.

Definition isNone {A} (o : option A) : bool :=
  match o with
  | None => true
  | Some _ => false
  end.

(** Every step of the light-client factory succeeds. *)
Definition neutrinoSucceeds (w : World) (a : factoryArgs) : bool :=
  let neutrinoDbPath :=
    filepath_Join w (ChainDir (homeChainConfigOf w a))
      (normalizeNetwork w (Name (activeNetParams w))) in
  match PrimaryChain w with
  | otherChain _ => false
  | _ =>
      isNone (mkdirAll_err w neutrinoDbPath)
      && isNone (walletdb_Create_err w
                   (filepath_Join w neutrinoDbPath "neutrino.db"))
      && isNone (NewChainService_err w)
      && isNone (notifier_New_err w)
      && isNone (chainView_New_err w)
      && isNone (btcwallet_New_err w)
      && isNone (NewLightningWallet_err w)
      && isNone (wallet_Startup_err w)
  end.

(** The calls of a light-client construction that succeeds. *)
Definition neutrinoCalls (w : World) (a : factoryArgs) : list Event :=
  let neutrinoDbPath :=
    filepath_Join w (ChainDir (homeChainConfigOf w a))
      (normalizeNetwork w (Name (activeNetParams w))) in
  [EvMkdirAll neutrinoDbPath;
   EvDbCreate (filepath_Join w neutrinoDbPath "neutrino.db");
   EvNewChainService; EvSvcStart; EvNotifierNew; EvChainViewNew;
   EvChainSourceNew; EvWalletControllerNew; EvKeyRingNew;
   EvLightningWalletNew; EvWalletStartup].

Definition litecoinWorld : World :=
  worldWith litecoinChain testnet3 [] false None.

Definition unknownChainWorld : World :=
  worldWith (otherChain 7) testnet3 [] false None.

(** The connection settings the bitcoind factory builds for the host
    [h] (lines 189-197), and those the btcd factory builds for the
    certificate [certs] (lines 186-195). *)
Definition bitcoindConnConfig (conf : bitcoindConfig) (h : string)
  : ConnConfig :=
  {| Host := h;
     Endpoint := "";
     User := bitcoind_RPCUser conf;
     Pass := bitcoind_RPCPass conf;
     Certificates := "";
     DisableTLS := true;
     DisableConnectOnNew := true;
     DisableAutoReconnect := false;
     HTTPPostMode := true |}.

Definition btcdConnConfig (w : World) (conf : btcdConfig) (certs : string)
  : ConnConfig :=
  {| Host := btcdHostOf w conf;
     Endpoint := "ws";
     User := btcd_RPCUser conf;
     Pass := btcd_RPCPass conf;
     Certificates := certs;
     DisableTLS := false;
     DisableConnectOnNew := true;
     DisableAutoReconnect := false;
     HTTPPostMode := false |}.

(** The connection settings a live estimator holds. *)
Definition estimatorConfig (f : option FeeEstimator) : option ConnConfig :=
  match f with
  | Some (BitcoindFeeEstimator rc _ _) | Some (BtcdFeeEstimator rc _ _) =>
      Some rc
  | _ => None
  end.

(** The node configuration file [ParseRPCParams] reads, by variant and
    chain (the switch before the simnet test). *)
Definition btcdConfFile (w : World) (conf : btcdConfig) (net : chainCode)
  : string :=
  match net with
  | bitcoinChain => filepath_Join w (btcd_Dir conf) "btcd.conf"
  | litecoinChain => filepath_Join w (btcd_Dir conf) "ltcd.conf"
  | otherChain _ => filepath_Join w "" ".conf"
  end.

Definition bitcoindConfFile (w : World) (conf : bitcoindConfig)
    (net : chainCode) : string :=
  match net with
  | bitcoinChain => filepath_Join w (bitcoind_Dir conf) "bitcoin.conf"
  | litecoinChain => filepath_Join w (bitcoind_Dir conf) "litecoin.conf"
  | otherChain _ => filepath_Join w "" ".conf"
  end.

(** The error of the first step to fail among those the light client
    runs once its service is started: notifier, chain view, wallet
    controller, lightning wallet, wallet start-up. *)
Definition laterFailure (w : World) : option error :=
  match notifier_New_err w with
  | Some err => Some err
  | None =>
      match chainView_New_err w with
      | Some err => Some err
      | None =>
          match btcwallet_New_err w with
          | Some err => Some err
          | None =>
              match NewLightningWallet_err w with
              | Some err => Some err
              | None => wallet_Startup_err w
              end
          end
      end
  end.

(** The directory and the file of the light client's index (lines
    93-101). *)
Definition neutrinoDbPathOf (w : World) (a : factoryArgs) : string :=
  filepath_Join w (ChainDir (homeChainConfigOf w a))
    (normalizeNetwork w (Name (activeNetParams w))).

Definition neutrinoDbNameOf (w : World) (a : factoryArgs) : string :=
  filepath_Join w (neutrinoDbPathOf w a) "neutrino.db".

(** A configuration text with a comment, a blank line and settings of
    other keys around the two lines. *)
Definition confWithComment : string :=
  "# bitcoind settings" ++ newline ++
  newline ++
  "rpcusername=bob" ++ newline ++
  "rpcuser=alice" ++ newline ++
  "rpcpassword=secret" ++ newline ++
  "zmqpubrawblock=tcp://127.0.0.1:28332".

(** *** A setting after lines that do not set its key *)

(** Whether the position after [s] starts a line, [bol] telling it of
    the position before [s]. *)
Fixpoint bolAfter (bol : bool) (s : string) : bool :=
  match s with
  | EmptyString => bol
  | String c s' => bolAfter (Ascii.eqb c "010") s'
  end.

(** Whether [s] begins with [key] and then, after white space, with
    an equals sign, or with nothing more. *)
Definition setsKey (key s : string) : bool :=
  match stripPrefix key s with
  | None => false
  | Some r =>
      match skipSpace r with
      | EmptyString => true
      | String c _ => Ascii.eqb c "="
      end
  end.

(** Whether some line of [s] begins, after white space, with a
    setting of [key]. *)
Fixpoint keyAtLineStart (key : string) (bol : bool) (s : string) : bool :=
  match s with
  | EmptyString => false
  | String c s' =>
      (bol && setsKey key (skipSpace s))
      || keyAtLineStart key (Ascii.eqb c "010") s'
  end.

(** What may follow a value: nothing, or white space. *)
Definition endsValue (post : string) : bool :=
  match post with
  | EmptyString => true
  | String c _ => isSpace c
  end.

(** * Properties *)

(** ** The library functions on the inputs the backends meet *)

Example split_cookie :
  splitByte ":" "bob:hunter2" = ["bob"; "hunter2"].
Proof. reflexivity. Qed.

Example find_rpcuser :
  FindSubmatch "rpcuser" ("# comment" ++ String "010" "  rpcuser = alice" ++ String "010" "rpcpassword=secret")
  = Some "alice".
Proof. reflexivity. Qed.

Example find_rpcpass_not_password :
  FindSubmatch "rpcpass" "rpcpassword=secret" = None.
Proof. reflexivity. Qed.

Example atoi_port : Atoi "18334" = Some 18334%Z.
Proof. reflexivity. Qed.

Example format_port : formatInt 18332 = "18332".
Proof. reflexivity. Qed.

Example format_neg : formatInt (-2) = "-2".
Proof. reflexivity. Qed.

Example format_zero : formatInt 0 = "0".
Proof. reflexivity. Qed.

Example decode_hex : DecodeString "4a4B" = Some "JK".
Proof. reflexivity. Qed.

Example decode_error_invalid_byte :
  DecodeString "4a4g" = None
  /\ hexDecodeError "4a4g" = "encoding/hex: invalid byte: U+0067 'g'".
Proof. split; reflexivity. Qed.

Example decode_error_odd_length :
  DecodeString "4a4" = None
  /\ hexDecodeError "4a4" = "encoding/hex: odd length hex string".
Proof. split; reflexivity. Qed.

Example decode_error_unprintable :
  hexDecodeError ("4a" ++ String "010" "4")
  = "encoding/hex: invalid byte: U+000A".
Proof. reflexivity. Qed.

Example atoi_error_syntax :
  Atoi "18334x" = None /\ atoiErrorKind "18334x" = "invalid syntax".
Proof. split; reflexivity. Qed.

Example atoi_error_range :
  Atoi "9223372036854775808" = None
  /\ atoiErrorKind "9223372036854775808" = "value out of range".
Proof. split; reflexivity. Qed.

Example atoi_error_range_before_syntax :
  Atoi "99999999999999999999x" = None
  /\ atoiErrorKind "99999999999999999999x" = "value out of range"
  /\ atoiErrorKind "9999999999999999999x" = "invalid syntax".
Proof. repeat split; reflexivity. Qed.

Lemma hexDecodeError_defined_bounded n :
  forall s : string,
    String.length s <= n ->
    DecodeString s = None <-> hexDecodeError s <> "".
Proof.
  induction n as [| n IH]; intros s Hn.
  - destruct s; [| simpl in Hn; lia]. simpl. split; congruence.
  - destruct s as [| a [| b s']].
    + simpl. split; congruence.
    + simpl. unfold invalidByteError, errLength.
      destruct (hexVal a); split; intros; try reflexivity; discriminate.
    + simpl in Hn. assert (Hs : String.length s' <= n) by lia.
      specialize (IH s' Hs). simpl. unfold invalidByteError.
      destruct (hexVal a); [| split; intros; [discriminate | reflexivity]].
      destruct (hexVal b); [| split; intros; [discriminate | reflexivity]].
      destruct (DecodeString s').
      * split; [discriminate |]. intros H. apply IH in H. discriminate.
      * split; [| reflexivity]. intros _. apply IH. reflexivity.
Qed.

(** The decoder has an error to report exactly when it fails. *)
Lemma hexDecodeError_defined s :
  DecodeString s = None <-> hexDecodeError s <> "".
Proof. apply (hexDecodeError_defined_bounded (String.length s)). lia. Qed.

(** ** Shape of the factory's results *)

Lemma orReturn_allOrNothing {A} (m : IO (res A)) (k : A -> IO GoResult) t :
  (forall a t', m t = (Ok a, t') -> allOrNothing (fst (k a t'))) ->
  allOrNothing (fst (orReturn m k t)).
Proof.
  intros Hk. unfold orReturn, bind.
  destruct (m t) as [[a | err] t']; [now apply Hk | exact I].
Qed.

Lemma bind_allOrNothing {A} (m : IO A) (k : A -> IO GoResult) t :
  (forall a t', allOrNothing (fst (k a t'))) ->
  allOrNothing (fst (bind m k t)).
Proof.
  intros Hk. unfold bind. destruct (m t) as [a t']. apply Hk.
Qed.

Lemma openWallet_allOrNothing w a cc wcfg cu t :
  feeEstimator cc <> None -> chainNotifier cc <> None ->
  chainView cc <> None ->
  allOrNothing (fst (openWallet w a cc wcfg cu t)).
Proof.
  intros Hf Hn Hv. unfold openWallet.
  apply orReturn_allOrNothing; intros _ t1 _.
  apply bind_allOrNothing; intros _ t2.
  apply orReturn_allOrNothing; intros _ t3 _.
  apply orReturn_allOrNothing; intros _ t4 _.
  unfold ret, allOrNothing, populated; simpl.
  destruct (feeEstimator cc); [| congruence].
  destruct (chainNotifier cc); [| congruence].
  destruct (chainView cc); [| congruence].
  reflexivity.
Qed.

Lemma initialControl_feeEstimator w a cc :
  initialControl w a = Ok cc ->
  feeEstimator cc = Some (StaticFeeEstimator (defaultStaticFeeRate w)).
Proof.
  unfold initialControl, defaultStaticFeeRate.
  destruct (PrimaryChain w); intros H; inversion H; subst; reflexivity.
Qed.

Ltac from_initialControl H :=
  unfold ret in H; inversion H; subst; clear H;
  match goal with
  | E : initialControl _ _ = Ok _ |- _ =>
      apply initialControl_feeEstimator in E
  end.

Ltac open_wallet_shape :=
  apply openWallet_allOrNothing; simpl; congruence.

Lemma bitcoind_allOrNothing w conf a t :
  allOrNothing (fst (bitcoind_NewChainControlFromConfig w conf a t)).
Proof.
  unfold bitcoind_NewChainControlFromConfig.
  apply orReturn_allOrNothing; intros cc t0 Hcc. from_initialControl Hcc.
  apply orReturn_allOrNothing; intros host t1 _.
  apply orReturn_allOrNothing; intros _ t2 _.
  apply orReturn_allOrNothing; intros _ t3 _.
  apply orReturn_allOrNothing; intros _ t4 _.
  unfold startBitcoindFeeEstimator.
  destruct (Active (Bitcoin (cfg a)) && negb (RegTest (Bitcoin (cfg a)))).
  - apply orReturn_allOrNothing; intros _ t5 _.
    apply orReturn_allOrNothing; intros _ t6 _. open_wallet_shape.
  - destruct (Active (Litecoin (cfg a))).
    + apply orReturn_allOrNothing; intros _ t5 _.
      apply orReturn_allOrNothing; intros _ t6 _. open_wallet_shape.
    + open_wallet_shape.
Qed.

Lemma btcd_allOrNothing w conf a t :
  allOrNothing (fst (btcd_NewChainControlFromConfig w conf a t)).
Proof.
  unfold btcd_NewChainControlFromConfig.
  apply orReturn_allOrNothing; intros cc t0 Hcc. from_initialControl Hcc.
  apply orReturn_allOrNothing; intros cert t1 _.
  apply orReturn_allOrNothing; intros _ t2 _.
  apply orReturn_allOrNothing; intros _ t3 _.
  apply orReturn_allOrNothing; intros _ t4 _.
  match goal with |- context [if ?c then _ else _] => destruct c end.
  - apply orReturn_allOrNothing; intros _ t5 _.
    apply orReturn_allOrNothing; intros _ t6 _. open_wallet_shape.
  - open_wallet_shape.
Qed.

Lemma neutrino_allOrNothing w b a t :
  allOrNothing (fst (neutrino_NewChainControlFromConfig w b a t)).
Proof.
  unfold neutrino_NewChainControlFromConfig.
  apply orReturn_allOrNothing; intros cc t0 Hcc. from_initialControl Hcc.
  apply orReturn_allOrNothing; intros _ t1 _.
  apply orReturn_allOrNothing; intros _ t2 _.
  apply orReturn_allOrNothing; intros _ t3 _.
  apply bind_allOrNothing; intros _ t4.
  apply orReturn_allOrNothing; intros _ t5 _.
  apply orReturn_allOrNothing; intros _ t6 _.
  apply bind_allOrNothing; intros _ t7.
  open_wallet_shape.
Qed.

Lemma factory_allOrNothing w b a t :
  allOrNothing (fst (NewChainControlFromConfig w b a t)).
Proof.
  destruct b; simpl.
  - apply bitcoind_allOrNothing.
  - apply btcd_allOrNothing.
  - apply neutrino_allOrNothing.
Qed.

(** C1. Whichever the backend, when [NewChainControlFromConfig]
    returns an error it returns neither a bundle nor a clean-up
    function; and a bundle that is returned comes without error and
    with every capability set, so no partly built bundle reaches the
    caller. *)
Theorem C1_failure_returns_no_bundle_no_cleanup :
  forall (w : World) (b : backendConfig) (a : factoryArgs) (t : list Event)
         (cc : option chainControl) (cleanUp : option CleanUp)
         (err : option error),
    fst (NewChainControlFromConfig w b a t) = (cc, cleanUp, err) ->
    (err <> None -> cc = None /\ cleanUp = None) /\
    (forall c, cc = Some c -> err = None /\ populated c = true).
Proof.
  intros w b a t cc cleanUp err H.
  pose proof (factory_allOrNothing w b a t) as G.
  rewrite H in G. unfold allOrNothing in G.
  destruct cc as [c |], cleanUp as [cu |], err as [e |];
    try contradiction; split; try congruence; try tauto.
  - intros c' Hc; inversion Hc; subst; auto.
  - intros c' Hc; inversion Hc; subst; auto.
Qed.

(** The light client whose wallet fails to start: an error, no
    bundle, no clean-up. *)
Lemma C1_witness :
  fst (NewChainControlFromConfig
         (worldWith bitcoinChain testnet3 [] false (Some "wallet locked"))
         (NeutrinoBackend neutrinoConf)
         (argsWith (chainConfigOf true false false) inactiveChain) [])
  = (None, None, Some "wallet locked")
  /\ (None : option chainControl) = None
  /\ (None : option CleanUp) = None.
Proof.
  split; [reflexivity |].
  apply (C1_failure_returns_no_bundle_no_cleanup
           (worldWith bitcoinChain testnet3 [] false (Some "wallet locked"))
           (NeutrinoBackend neutrinoConf)
           (argsWith (chainConfigOf true false false) inactiveChain) []
           None None (Some "wallet locked")).
  - reflexivity.
  - discriminate.
Defined.

(** ** ParseRPCParams *)

(** C8. Whichever the backend, when every credential field it needs
    is set, [ParseRPCParams] returns nil, leaves the configuration as
    it was and performs no I/O: the trace is unchanged. *)
Theorem C8_all_set_returned_unchanged_without_io :
  forall (w : World) (b : backendConfig) (cConfig : chainConfig)
         (net : chainCode) (funcName : string) (t : list Event),
    allSet b = true ->
    ParseRPCParams w b cConfig net funcName t = ((b, None), t).
Proof.
  intros w [conf | conf | conf] cConfig net funcName t H;
    unfold allSet, requiredFields in H; simpl in H.
  - unfold ParseRPCParams, bitcoind_ParseRPCParams, bind.
    destruct (nonEmpty (bitcoind_RPCUser conf)); [| discriminate].
    destruct (nonEmpty (bitcoind_RPCPass conf)); [| discriminate].
    destruct (nonEmpty (bitcoind_ZMQPath conf)); [| discriminate].
    reflexivity.
  - unfold ParseRPCParams, btcd_ParseRPCParams, bind.
    destruct (nonEmpty (btcd_RPCUser conf)); [| discriminate].
    destruct (nonEmpty (btcd_RPCPass conf)); [| discriminate].
    reflexivity.
  - reflexivity.
Qed.

Lemma C8_witness :
  ParseRPCParams (worldWith bitcoinChain testnet3 [] false None)
    (BitcoindBackend
       (bitcoindConfOf "localhost" "alice" "secret" "tcp://127.0.0.1:28332"))
    (chainConfigOf true false false) bitcoinChain "loadConfig" []
  = ((BitcoindBackend
        (bitcoindConfOf "localhost" "alice" "secret" "tcp://127.0.0.1:28332"),
      None), []).
Proof.
  apply (C8_all_set_returned_unchanged_without_io
           (worldWith bitcoinChain testnet3 [] false None)
           (BitcoindBackend
              (bitcoindConfOf "localhost" "alice" "secret"
                 "tcp://127.0.0.1:28332"))).
  reflexivity.
Defined.

(** C9. Whichever the backend, when some but not all of the credential
    fields it needs are set, [ParseRPCParams] returns an error, again
    without touching the configuration or the outside world. *)
Theorem C9_partial_credentials_rejected :
  forall (w : World) (b : backendConfig) (cConfig : chainConfig)
         (net : chainCode) (funcName : string) (t : list Event),
    someSet b = true ->
    allSet b = false ->
    exists err : error,
      ParseRPCParams w b cConfig net funcName t = ((b, Some err), t).
Proof.
  intros w [conf | conf | conf] cConfig net funcName t Hs Ha;
    unfold someSet, allSet, requiredFields in Hs, Ha; simpl in Hs, Ha.
  - unfold ParseRPCParams, bitcoind_ParseRPCParams, bind.
    destruct (nonEmpty (bitcoind_RPCUser conf)),
             (nonEmpty (bitcoind_RPCPass conf)),
             (nonEmpty (bitcoind_ZMQPath conf));
      simpl in *; try discriminate; eexists; reflexivity.
  - unfold ParseRPCParams, btcd_ParseRPCParams, bind.
    destruct (nonEmpty (btcd_RPCUser conf)),
             (nonEmpty (btcd_RPCPass conf));
      simpl in *; try discriminate; eexists; reflexivity.
  - discriminate.
Qed.

Lemma C9_witness :
  exists err : error,
    ParseRPCParams (worldWith bitcoinChain testnet3 [] false None)
      (BtcdBackend (btcdConfOf "localhost" "alice" "" "" ""))
      (chainConfigOf true false false) bitcoinChain "loadConfig" []
    = ((BtcdBackend (btcdConfOf "localhost" "alice" "" "" ""), Some err), []).
Proof.
  apply (C9_partial_credentials_rejected
           (worldWith bitcoinChain testnet3 [] false None)
           (BtcdBackend (btcdConfOf "localhost" "alice" "" "" ""))).
  - reflexivity.
  - reflexivity.
Defined.

(** ** The light client's resources *)

Ltac unfold_io :=
  unfold orReturn, bindRes, bind, step, stepPrinting, emit, ret in *.

Ltac split_outcomes :=
  repeat match goal with
         | |- context [match ?x with _ => _ end] =>
             lazymatch x with
             | context [match _ with _ => _ end] => fail
             | _ => destruct x eqn:?; simpl
             end
         end.

Ltac new_events :=
  repeat rewrite <- app_assoc; simpl;
  first [ eexists; split; [reflexivity |]
        | exists []; split; [symmetry; apply app_nil_r |] ].

(** C10. In the light-client factory, once the index database is
    created and the sync service built, the service is started and
    only then the notifier is built, the chain view, the wallet
    controller and the wallet after it.  When one of these later
    steps fails, the factory returns that step's error with no bundle
    and no clean-up function, and has neither stopped the service nor
    closed the database; the clean-up function that would do both is
    returned only when every step succeeds.  On every error path,
    early ones included, nothing is returned, stopped or closed. *)
Theorem C10_neutrino_failure_leaves_service_running :
  forall (w : World) (b : neutrinoConfig) (a : factoryArgs)
         (t : list Event),
    (forall (r : GoResult) (t' : list Event),
        neutrino_NewChainControlFromConfig w b a t = (r, t') ->
        snd r <> None ->
        fst (fst r) = None /\ snd (fst r) = None
        /\ exists new : list Event,
             t' = (t ++ new)%list
             /\ occurs EvSvcStop new = false
             /\ occurs EvDbClose new = false)
    /\ (forall cc0 : chainControl,
          initialControl w a = Ok cc0 ->
          mkdirAll_err w (neutrinoDbPathOf w a) = None ->
          walletdb_Create_err w (neutrinoDbNameOf w a) = None ->
          NewChainService_err w = None ->
          exists rest : list Event,
            snd (neutrino_NewChainControlFromConfig w b a t)
            = (t ++ [EvMkdirAll (neutrinoDbPathOf w a);
                     EvDbCreate (neutrinoDbNameOf w a);
                     EvNewChainService; EvSvcStart; EvNotifierNew]
                 ++ rest)%list
            /\ occurs EvSvcStart rest = false
            /\ occurs EvSvcStop rest = false
            /\ occurs EvDbClose rest = false
            /\ match laterFailure w with
               | Some err =>
                   fst (neutrino_NewChainControlFromConfig w b a t)
                   = (None, None, Some err)
               | None =>
                   exists cc : chainControl,
                     fst (neutrino_NewChainControlFromConfig w b a t)
                     = (Some cc, Some [EvSvcStop; EvDbClose], None)
               end).
Proof.
  intros w b a t. split.
  - intros r t' H.
    unfold neutrino_NewChainControlFromConfig, openWallet in H.
    unfold_io. revert H.
    destruct (initialControl w a); simpl;
      split_outcomes; intros H; inversion H; subst; clear H;
      simpl; intros Herr; try congruence;
      (split; [reflexivity |]); (split; [reflexivity |]);
      new_events; simpl; auto.
  - intros cc0 Hcc Hmk Hdb Hsvc.
    unfold neutrinoDbNameOf, neutrinoDbPathOf in *.
    unfold neutrino_NewChainControlFromConfig, openWallet, laterFailure.
    unfold_io. rewrite Hcc. simpl. rewrite Hmk. simpl.
    rewrite Hdb. simpl. rewrite Hsvc. simpl.
    split_outcomes; repeat rewrite <- app_assoc; simpl;
      eexists; (split; [reflexivity |]); simpl;
      repeat split; eauto.
Qed.

Lemma C10_witness :
  exists rest : list Event,
    snd (neutrino_NewChainControlFromConfig
           (worldWith bitcoinChain testnet3 [] false (Some "wallet locked"))
           neutrinoConf
           (argsWith (chainConfigOf true false false) inactiveChain) [])
    = ([] ++ [EvMkdirAll "/home/u/.lnd/data/chain/bitcoin/testnet3";
              EvDbCreate
                "/home/u/.lnd/data/chain/bitcoin/testnet3/neutrino.db";
              EvNewChainService; EvSvcStart; EvNotifierNew]
          ++ rest)%list
    /\ occurs EvSvcStart rest = false
    /\ occurs EvSvcStop rest = false
    /\ occurs EvDbClose rest = false
    /\ fst (neutrino_NewChainControlFromConfig
              (worldWith bitcoinChain testnet3 [] false
                 (Some "wallet locked"))
              neutrinoConf
              (argsWith (chainConfigOf true false false) inactiveChain) [])
       = (None, None, Some "wallet locked").
Proof.
  destruct (C10_neutrino_failure_leaves_service_running
              (worldWith bitcoinChain testnet3 [] false
                 (Some "wallet locked"))
              neutrinoConf
              (argsWith (chainConfigOf true false false) inactiveChain) [])
    as [_ H].
  apply (H (emptyControl (policyOf (chainConfigOf true false false))
              (StaticFeeEstimator 50)));
    reflexivity.
Defined.

(** ** Choice of the fee estimator *)

(** C2, as stated, fails: with bitcoind as the backend and bitcoin's
    simnet flag set, a private network by any of the four flags, the
    factory succeeds with a live estimator, not the static one. *)
Lemma C2_counterexample :
  isPrivateNetwork
    (cfg (argsWith (chainConfigOf true true false) inactiveChain)) = true
  /\ option_map isLive
       (feeEstimatorOf
          (fst (NewChainControlFromConfig
                  (worldWith bitcoinChain simnet [] false None)
                  (BitcoindBackend
                     (bitcoindConfOf "localhost" "alice" "secret"
                        "tcp://127.0.0.1:28332"))
                  (argsWith (chainConfigOf true true false) inactiveChain)
                  [])))
     = Some true.
Proof.
  split; reflexivity.
Qed.

Ltac unfold_factories :=
  unfold NewChainControlFromConfig, bitcoind_NewChainControlFromConfig,
    btcd_NewChainControlFromConfig, neutrino_NewChainControlFromConfig,
    startBitcoindFeeEstimator, bitcoindHostOf, rpcCertOf, os_Open,
    ioutil_ReadAll, openWallet, initialControl, defaultStaticFeeRate in *.

(** C2, amended. When a factory succeeds, the estimator of its bundle
    is the static one at the primary chain's default rate, and no live
    estimator was built, for the light client, for btcd when any of
    the simnet and regtest flags is set, and for bitcoind when neither
    bitcoin is active outside regtest nor litecoin is active; in every
    other case it is a live estimator with a fallback of 25 that was
    started before the wallet was opened. *)
Theorem C2_fee_estimator_selection :
  forall (w : World) (b : backendConfig) (a : factoryArgs)
         (t t' : list Event) (cc : chainControl) (cleanUp : option CleanUp),
    NewChainControlFromConfig w b a t = ((Some cc, cleanUp, None), t') ->
    exists new : list Event,
      t' = (t ++ new)%list /\
      if usesLiveEstimator b (cfg a)
      then isStartedLive 25 (feeEstimator cc) = true
           /\ occurs EvFeeEstimatorStart new = true
           /\ precedes EvFeeEstimatorStart EvWalletControllerNew new = true
      else feeEstimator cc
             = Some (StaticFeeEstimator (defaultStaticFeeRate w))
           /\ occurs EvFeeEstimatorNew new = false.
Proof.
  intros w [conf | conf | conf] a t t' cc cleanUp H;
    unfold_factories; unfold usesLiveEstimator, isPrivateNetwork;
    unfold_io; revert H; simpl.
  - split_outcomes; intros H; inversion H; subst; clear H;
      new_events; simpl; repeat split; auto.
  - destruct (SimNet (Bitcoin (cfg a))), (SimNet (Litecoin (cfg a))),
             (RegTest (Bitcoin (cfg a))), (RegTest (Litecoin (cfg a)));
      simpl; split_outcomes; intros H; inversion H; subst; clear H;
      new_events; simpl; repeat split; auto.
  - split_outcomes; intros H; inversion H; subst; clear H;
      new_events; simpl; repeat split; auto.
Qed.


Lemma C2_witness :
  exists (cc : chainControl) (new : list Event),
    fst (fst (fst bitcoindTestnetRun)) = Some cc
    /\ snd bitcoindTestnetRun = ([] ++ new)%list
    /\ isStartedLive 25 (feeEstimator cc) = true
    /\ occurs EvFeeEstimatorStart new = true
    /\ precedes EvFeeEstimatorStart EvWalletControllerNew new = true.
Proof.
  edestruct (C2_fee_estimator_selection
               (worldWith bitcoinChain testnet3 [] false None)
               (BitcoindBackend
                  (bitcoindConfOf "localhost" "alice" "secret"
                     "tcp://127.0.0.1:28332"))
               (argsWith (chainConfigOf true false false) inactiveChain) [])
    as [new [Ht Hsel]].
  - cbv. reflexivity.
  - simpl in Hsel. eexists. exists new.
    split; [reflexivity |]. split; [exact Ht |]. exact Hsel.
Defined.

(** ** Host resolution *)

Lemma inRange_bounds z z' :
  inRange z = Some z' -> z' = z /\ (minInt <= z <= maxInt)%Z.
Proof.
  unfold inRange.
  destruct (Z.leb minInt z) eqn:E1, (Z.leb z maxInt) eqn:E2;
    simpl; intros H; inversion H; subst.
  apply Z.leb_le in E1, E2. auto.
Qed.

Lemma Atoi_bounds s z :
  Atoi s = Some z -> (minInt <= z <= maxInt)%Z.
Proof.
  unfold Atoi. intros H.
  assert (G : exists z0, inRange z0 = Some z).
  { destruct s as [| c s']; [discriminate |].
    repeat match type of H with
           | match ?x with _ => _ end = _ => destruct x; try discriminate
           | (if ?x then _ else _) = _ => destruct x; try discriminate
           end; eauto. }
  destruct G as [z0 G]. apply inRange_bounds in G.
  destruct G as [-> G]. exact G.
Qed.

Lemma wrapInt_small z :
  (minInt <= z <= maxInt)%Z -> wrapInt z = z.
Proof.
  unfold wrapInt, minInt, maxInt. intros H.
  rewrite Z.mod_small; lia.
Qed.

(** C3, as stated, fails: on bitcoin's regtest, when the dial to the
    derived host fails, a host without port separator resolves to port
    18443 for bitcoind, not to the RPC port less two. *)
Lemma C3_counterexample :
  containsByte ":" "localhost" = false
  /\ Atoi (rpcPort regtest) = Some 18334%Z
  /\ fst (bitcoindHostOf
            (worldWith bitcoinChain regtest [] true None)
            (bitcoindConfOf "localhost" "alice" "secret"
               "tcp://127.0.0.1:28332")
            (argsWith (chainConfigOf true false true) inactiveChain) [])
     = Ok "localhost:18443"
  /\ "localhost:18443" <> "localhost" ++ ":" ++ formatInt (18334 - 2).
Proof.
  repeat split; try reflexivity. discriminate.
Qed.

(** C3, amended. A host with a port separator is used as it stands by
    both full-node variants.  Without one, btcd is reached at the host
    followed by the network's RPC port, and bitcoind at the host
    followed by that port less two, except that on bitcoin's regtest a
    failed dial to that address replaces the port by 18443. *)
Theorem C3_host_resolution :
  forall (w : World) (a : factoryArgs) (t : list Event)
         (bconf : bitcoindConfig) (sconf : btcdConfig) (P : Z),
    Atoi (rpcPort (activeNetParams w)) = Some P ->
    (minInt + 2 <= P)%Z ->
    (containsByte ":" (btcd_RPCHost sconf) = true ->
     btcdHostOf w sconf = btcd_RPCHost sconf)
    /\ (containsByte ":" (btcd_RPCHost sconf) = false ->
        btcdHostOf w sconf
        = btcd_RPCHost sconf ++ ":" ++ rpcPort (activeNetParams w))
    /\ (containsByte ":" (bitcoind_RPCHost bconf) = true ->
        bitcoindHostOf w bconf a t = (Ok (bitcoind_RPCHost bconf), t))
    /\ (containsByte ":" (bitcoind_RPCHost bconf) = false ->
        fst (bitcoindHostOf w bconf a t)
        = Ok (if Active (Bitcoin (cfg a)) && RegTest (Bitcoin (cfg a))
                 && dial_fails w (bitcoind_RPCHost bconf ++ ":" ++
                                  formatInt (P - 2))
              then bitcoind_RPCHost bconf ++ ":" ++ "18443"
              else bitcoind_RPCHost bconf ++ ":" ++ formatInt (P - 2))).
Proof.
  intros w a t bconf sconf P HP Hlow.
  pose proof (Atoi_bounds _ _ HP) as Hb.
  assert (Hw : wrapInt (P - 2) = (P - 2)%Z)
    by (apply wrapInt_small; lia).
  unfold btcdHostOf, bitcoindHostOf.
  repeat split; intros Hc; rewrite Hc; try reflexivity.
  rewrite HP, Hw. unfold bind, emit, ret.
  destruct (Active (Bitcoin (cfg a))), (RegTest (Bitcoin (cfg a)));
    simpl; try reflexivity.
  destruct (dial_fails w _); reflexivity.
Qed.

Lemma C3_witness :
  (containsByte ":" "10.0.0.5:8334" = true ->
   btcdHostOf (worldWith bitcoinChain testnet3 [] false None)
     (btcdConfOf "10.0.0.5:8334" "alice" "secret" "" "")
   = "10.0.0.5:8334")
  /\ (containsByte ":" "10.0.0.5:8334" = false ->
      btcdHostOf (worldWith bitcoinChain testnet3 [] false None)
        (btcdConfOf "10.0.0.5:8334" "alice" "secret" "" "")
      = "10.0.0.5:8334" ++ ":" ++ "18334")
  /\ (containsByte ":" "localhost" = true ->
      bitcoindHostOf (worldWith bitcoinChain testnet3 [] false None)
        (bitcoindConfOf "localhost" "alice" "secret" "tcp://127.0.0.1:28332")
        (argsWith (chainConfigOf true false false) inactiveChain) []
      = (Ok "localhost", []))
  /\ (containsByte ":" "localhost" = false ->
      fst (bitcoindHostOf (worldWith bitcoinChain testnet3 [] false None)
             (bitcoindConfOf "localhost" "alice" "secret"
                "tcp://127.0.0.1:28332")
             (argsWith (chainConfigOf true false false) inactiveChain) [])
      = Ok "localhost:18332").
Proof.
  apply (C3_host_resolution
           (worldWith bitcoinChain testnet3 [] false None)
           (argsWith (chainConfigOf true false false) inactiveChain) []
           (bitcoindConfOf "localhost" "alice" "secret"
              "tcp://127.0.0.1:28332")
           (btcdConfOf "10.0.0.5:8334" "alice" "secret" "" "")
           18334%Z).
  - reflexivity.
  - unfold minInt. lia.
Defined.

(** ** Credential discovery *)

Lemma append_nonempty (a b : string) :
  b <> "" -> (a ++ b =? "") = false.
Proof.
  intros Hb. destruct a; simpl; [| reflexivity].
  destruct b; [congruence | reflexivity].
Qed.

Lemma cookiePathOf_nonempty w path contents :
  (cookiePathOf w path contents =? "") = false.
Proof.
  unfold cookiePathOf. apply append_nonempty.
  unfold chainDirOf.
  repeat match goal with
         | |- context [if ?c then _ else _] => destruct c
         end; discriminate.
Qed.

(** C4, as stated, fails: a cookie [bob:hunter2] is in place, but the
    configuration text has no [zmqpubrawblock] line and discovery ends
    with an error before it looks for the cookie. *)
Lemma C4_counterexample :
  splitByte ":" "bob:hunter2" = ["bob"; "hunter2"]
  /\ cookiePathOf (testnetWorld [(confPath, confNoZmq);
                                 (cookiePath, "bob:hunter2")])
       confPath confNoZmq = cookiePath
  /\ fst (extractBitcoindRPCParams
            (testnetWorld [(confPath, confNoZmq);
                           (cookiePath, "bob:hunter2")])
            confPath [])
     = Err "unable to find zmqpubrawblock in config".
Proof.
  repeat split; reflexivity.
Qed.

(** C4, amended. For a configuration text that has a [zmqpubrawblock]
    setting, when the cookie file at the derived path can be read and
    splits at colons into exactly two fields, discovery for bitcoind
    returns these two fields as user and password, with the ZMQ path,
    whatever [rpcuser] and [rpcpassword] lines the text holds. *)
Theorem C4_cookie_preferred :
  forall (w : World) (path contents zmq cookie u p : string)
         (t : list Event),
    path <> "" ->
    open_file w path = None ->
    read_all w path = Ok contents ->
    FindSubmatch "zmqpubrawblock" contents = Some zmq ->
    open_file w (cookiePathOf w path contents) = None ->
    read_all w (cookiePathOf w path contents) = Ok cookie ->
    splitByte ":" cookie = [u; p] ->
    fst (extractBitcoindRPCParams w path t) = Ok (u, p, zmq).
Proof.
  intros w path contents zmq cookie u p t Hp Ho Hr Hz Hco Hcr Hs.
  unfold extractBitcoindRPCParams, deferClose, os_Open, ioutil_ReadAll,
    ioutil_ReadFile.
  unfold_io.
  apply String.eqb_neq in Hp. rewrite Hp, Ho. simpl.
  rewrite Hr. simpl. rewrite Hz. simpl.
  rewrite cookiePathOf_nonempty, Hco, Hcr, Hs. reflexivity.
Qed.

Lemma C4_witness :
  fst (extractBitcoindRPCParams
         (testnetWorld [(confPath, confWithZmq);
                        (cookiePath, "bob:hunter2")])
         confPath [])
  = Ok ("bob", "hunter2", "tcp://127.0.0.1:28332").
Proof.
  apply (C4_cookie_preferred
           (testnetWorld [(confPath, confWithZmq);
                          (cookiePath, "bob:hunter2")])
           confPath confWithZmq "tcp://127.0.0.1:28332" "bob:hunter2"
           "bob" "hunter2" []);
    first [ reflexivity | discriminate ].
Defined.

(** *** The pattern on texts made of [key=value] lines *)

Lemma noSpace_cons c s :
  noSpace (String c s) = true -> isSpace c = false /\ noSpace s = true.
Proof.
  unfold noSpace; simpl. destruct (isSpace c); simpl; auto. discriminate.
Qed.

Lemma isKey_cons c s :
  isKey (String c s) = true ->
  isSpace c = false /\ Ascii.eqb c "=" = false /\ isKey s = true.
Proof.
  unfold isKey. intros H. apply andb_true_iff in H. destruct H as [Hs He].
  apply noSpace_cons in Hs. destruct Hs as [Hc Hs].
  simpl in He. destruct (Ascii.eqb c "="); [discriminate |].
  rewrite Hs, He. auto.
Qed.

Lemma skipSpace_head c s :
  isSpace c = false -> skipSpace (String c s) = String c s.
Proof. intros H; simpl; rewrite H; reflexivity. Qed.

Lemma takeNonSpace_value v rest :
  noSpace v = true ->
  takeNonSpace (v ++ newline ++ rest) = v.
Proof.
  induction v as [| c v IH]; intros H.
  - reflexivity.
  - apply noSpace_cons in H. destruct H as [Hc Hv].
    simpl. rewrite Hc. f_equal. apply IH, Hv.
Qed.

(** What remains of the pattern once the key has been read. *)
Lemma afterKey_value v rest :
  isValue v = true ->
  match takeNonSpace (skipSpace (v ++ newline ++ rest)) with
  | EmptyString => None
  | x => Some x
  end = Some v.
Proof.
  unfold isValue. intros H. apply andb_true_iff in H. destruct H as [Hs Hn].
  destruct v as [| c v]; [discriminate |].
  pose proof (noSpace_cons _ _ Hs) as [Hc _].
  change ((String c v ++ newline ++ rest)%string)
    with (String c (v ++ newline ++ rest)).
  rewrite skipSpace_head by exact Hc.
  change (String c (v ++ newline ++ rest))
    with ((String c v ++ newline ++ rest)%string).
  rewrite takeNonSpace_value by exact Hs. reflexivity.
Qed.

Lemma matchHere_line key k v rest :
  isKey key = true -> isKey k = true -> isValue v = true ->
  matchHere key (k ++ "=" ++ v ++ newline ++ rest)
  = if String.eqb k key then Some v else None.
Proof.
  intros Hkey Hk Hv. unfold matchHere.
  assert (Hskip : skipSpace (k ++ "=" ++ v ++ newline ++ rest)
                  = (k ++ "=" ++ v ++ newline ++ rest)%string).
  { destruct k as [| c k]; [reflexivity |].
    apply isKey_cons in Hk. destruct Hk as [Hc _].
    simpl. rewrite Hc. reflexivity. }
  rewrite Hskip. clear Hskip.
  revert k Hk. induction key as [| a key IH]; intros k Hk.
  - destruct k as [| c k].
    + simpl. apply afterKey_value, Hv.
    + apply isKey_cons in Hk. destruct Hk as [Hc [He _]].
      simpl. rewrite Hc, He. reflexivity.
  - apply isKey_cons in Hkey. destruct Hkey as [Ha [Hae Hkey]].
    destruct k as [| c k].
    + simpl. rewrite Hae. reflexivity.
    + apply isKey_cons in Hk. destruct Hk as [_ [_ Hk]].
      simpl. rewrite (Ascii.eqb_sym c a).
      destruct (Ascii.eqb a c); [| reflexivity].
      apply IH; assumption.
Qed.

Lemma findFrom_rest_of_line key s rest :
  noNewline s ->
  findFrom key false (s ++ newline ++ rest) = findFrom key true rest.
Proof.
  induction s as [| c s IH]; intros H.
  - reflexivity.
  - simpl. rewrite (H c) by (simpl; auto).
    apply IH. intros c' Hc'. apply H. simpl; auto.
Qed.

Lemma findFrom_skip_line key s rest :
  noNewline s ->
  matchHere key (s ++ newline ++ rest) = None ->
  findFrom key true (s ++ newline ++ rest) = findFrom key true rest.
Proof.
  intros Hs Hm. destruct s as [| c s].
  - simpl in *. rewrite Hm. reflexivity.
  - change (findFrom key true (String c s ++ newline ++ rest))
      with (match matchHere key (String c s ++ newline ++ rest) with
            | Some v => Some v
            | None => findFrom key (Ascii.eqb c "010")
                        (s ++ newline ++ rest)
            end).
    rewrite Hm, (Hs c) by (simpl; auto).
    apply findFrom_rest_of_line.
    intros c' Hc'. apply Hs. simpl; auto.
Qed.

Lemma noSpace_noNewline s : noSpace s = true -> noNewline s.
Proof.
  induction s as [| c s IH]; intros H c' Hc'.
  - destruct Hc'.
  - apply noSpace_cons in H. destruct H as [Hc Hs].
    destruct Hc' as [<- | Hc'].
    + destruct (Ascii.eqb c "010") eqn:E; [| reflexivity].
      apply Ascii.eqb_eq in E. subst. discriminate.
    + apply IH; assumption.
Qed.

Lemma noNewline_app a b : noNewline a -> noNewline b -> noNewline (a ++ b).
Proof.
  unfold noNewline. induction a as [| c a IH]; intros Ha Hb c' Hc'.
  - apply Hb, Hc'.
  - simpl in Hc'. destruct Hc' as [<- | Hc'].
    + apply Ha. simpl; auto.
    + apply IH; auto. intros c0 H0. apply Ha. simpl; auto.
Qed.

(** On a text made of well-formed [key=value] lines the pattern finds
    the value of the first line with that key. *)
Lemma string_app_assoc (a b c : string) :
  ((a ++ b) ++ c)%string = (a ++ b ++ c)%string.
Proof.
  induction a as [| x a IH]; simpl; [reflexivity | now rewrite IH].
Qed.

Lemma renderConf_cons k v l :
  renderConf ((k, v) :: l)
  = ((k ++ "=" ++ v) ++ newline ++ renderConf l)%string.
Proof.
  cbn [renderConf]. rewrite !string_app_assoc. reflexivity.
Qed.

Lemma FindSubmatch_renderConf key l :
  isKey key = true ->
  forallb wellFormedSetting l = true ->
  FindSubmatch key (renderConf l) = lookupFirst key l.
Proof.
  intros Hkey. unfold FindSubmatch.
  induction l as [| [k v] l IH]; intros Hl.
  - simpl. unfold matchHere. destruct key; reflexivity.
  - simpl in Hl. apply andb_true_iff in Hl. destruct Hl as [Hkv Hl].
    unfold wellFormedSetting in Hkv. simpl in Hkv.
    apply andb_true_iff in Hkv. destruct Hkv as [Hk Hv].
    assert (Hm : matchHere key (renderConf ((k, v) :: l))
                 = if String.eqb k key then Some v else None)
      by (apply matchHere_line; assumption).
    cbn [lookupFirst].
    destruct (String.eqb k key) eqn:E.
    + destruct (renderConf ((k, v) :: l)); simpl; rewrite Hm; reflexivity.
    + rewrite <- IH by exact Hl.
      rewrite renderConf_cons in *.
      apply findFrom_skip_line; [| exact Hm].
      apply noNewline_app.
      * apply noSpace_noNewline. unfold isKey in Hk.
        apply andb_true_iff in Hk. tauto.
      * apply (noNewline_app "=").
        -- intros c [<- | []]. reflexivity.
        -- apply noSpace_noNewline. unfold isValue in Hv.
           apply andb_true_iff in Hv. tauto.
Qed.

(** C5, as stated, fails: each of these texts holds the lines
    [rpcuser=alice] and [rpcpassword=secret] and no cookie exists, yet
    bitcoind's discovery fails on the first for want of a
    [zmqpubrawblock] line and returns the user of an earlier [rpcuser]
    line on the second, and btcd's discovery fails on the first
    because the key it reads is [rpcpass]. *)
Lemma C5_counterexample :
  fst (extractBitcoindRPCParams
         (testnetWorld [(confPath, confNoZmq)]) confPath [])
  = Err "unable to find zmqpubrawblock in config"
  /\ fst (extractBitcoindRPCParams
            (testnetWorld [(confPath, confShadowed)]) confPath [])
     = Ok ("eve", "secret", "tcp://127.0.0.1:28332")
  /\ fst (extractBtcdRPCParams
            (testnetWorld [(btcdConfPath, confNoZmq)]) btcdConfPath [])
     = Err "unable to find rpcuser in config".
Proof.
  repeat split; reflexivity.
Qed.

(** C5, amended. For bitcoind, on every configuration text that has
    a [zmqpubrawblock] setting and in which the first setting of
    [rpcuser] gives [u] and the first setting of [rpcpassword] gives
    [p], when no cookie file can be opened, discovery succeeds and
    returns [u] and [p] (with the ZMQ path): alice and secret for a
    text that holds the lines [rpcuser=alice] and
    [rpcpassword=secret] with no earlier line setting these keys,
    whatever comments, blank lines and other settings surround
    them. *)
Theorem C5_user_and_password_from_config :
  forall (w : World) (path contents u p zmq : string) (t : list Event),
    path <> "" ->
    open_file w path = None ->
    read_all w path = Ok contents ->
    FindSubmatch "zmqpubrawblock" contents = Some zmq ->
    FindSubmatch "rpcuser" contents = Some u ->
    FindSubmatch "rpcpassword" contents = Some p ->
    open_file w (cookiePathOf w path contents) <> None ->
    fst (extractBitcoindRPCParams w path t) = Ok (u, p, zmq).
Proof.
  intros w path contents u p zmq t Hp Ho Hr Hz Hu Hpw Hc.
  unfold extractBitcoindRPCParams, deferClose, os_Open, ioutil_ReadAll,
    ioutil_ReadFile.
  unfold_io.
  apply String.eqb_neq in Hp. rewrite Hp, Ho. simpl.
  rewrite Hr. simpl. rewrite Hz. simpl.
  rewrite cookiePathOf_nonempty.
  destruct (open_file w (cookiePathOf w path contents));
    [| congruence].
  rewrite Hu, Hpw. reflexivity.
Qed.

Lemma C5_witness :
  fst (extractBitcoindRPCParams
         (testnetWorld [(confPath, confWithComment)]) confPath [])
  = Ok ("alice", "secret", "tcp://127.0.0.1:28332").
Proof.
  apply (C5_user_and_password_from_config
           (testnetWorld [(confPath, confWithComment)]) confPath
           confWithComment);
    first [ reflexivity | discriminate ].
Defined.

(** The same for btcd, whose password key is [rpcpass] and which needs
    neither cookie nor ZMQ path. *)
Lemma extractBtcd_user_and_password :
  forall (w : World) (path : string) (l : list (string * string))
         (u p : string) (t : list Event),
    path <> "" ->
    open_file w path = None ->
    read_all w path = Ok (renderConf l) ->
    forallb wellFormedSetting l = true ->
    lookupFirst "rpcuser" l = Some u ->
    lookupFirst "rpcpass" l = Some p ->
    fst (extractBtcdRPCParams w path t) = Ok (u, p).
Proof.
  intros w path l u p t Hp Ho Hr Hl Hu Hpw.
  unfold extractBtcdRPCParams, deferClose, os_Open, ioutil_ReadAll.
  unfold_io.
  apply String.eqb_neq in Hp. rewrite Hp, Ho. simpl.
  rewrite Hr. simpl.
  rewrite !FindSubmatch_renderConf by (exact Hl || reflexivity).
  rewrite Hu, Hpw. reflexivity.
Qed.

(** *** Missing keys *)

(** Bitcoind names the key it misses. *)
Lemma extractBitcoind_missing_key :
  forall (w : World) (path contents : string) (t : list Event),
    path <> "" ->
    open_file w path = None ->
    read_all w path = Ok contents ->
    open_file w (cookiePathOf w path contents) <> None ->
    fst (extractBitcoindRPCParams w path t)
    = match FindSubmatch "zmqpubrawblock" contents,
            FindSubmatch "rpcuser" contents,
            FindSubmatch "rpcpassword" contents with
      | None, _, _ => Err "unable to find zmqpubrawblock in config"
      | Some _, None, _ => Err "unable to find rpcuser in config"
      | Some _, Some _, None => Err "unable to find rpcpassword in config"
      | Some zmq, Some u, Some p => Ok (u, p, zmq)
      end.
Proof.
  intros w path contents t Hp Ho Hr Hc.
  unfold extractBitcoindRPCParams, deferClose, os_Open, ioutil_ReadAll,
    ioutil_ReadFile.
  unfold_io.
  apply String.eqb_neq in Hp. rewrite Hp, Ho. simpl.
  rewrite Hr. simpl.
  destruct (FindSubmatch "zmqpubrawblock" contents); [| reflexivity].
  simpl. rewrite cookiePathOf_nonempty.
  destruct (open_file w (cookiePathOf w path contents)); [| congruence].
  destruct (FindSubmatch "rpcuser" contents); [| reflexivity].
  destruct (FindSubmatch "rpcpassword" contents); reflexivity.
Qed.

(** C7 holds for bitcoind and for btcd's [rpcuser], but not for btcd's
    [rpcpass]: on a text that sets [rpcuser] and lacks [rpcpass],
    btcd's discovery fails with a message that names [rpcuser], the
    key that is there, instead of [rpcpass], the key that is missing. *)
Theorem C7_btcd_missing_rpcpass_names_rpcuser :
  FindSubmatch "rpcuser" confUserOnly = Some "alice"
  /\ FindSubmatch "rpcpass" confUserOnly = None
  /\ fst (extractBtcdRPCParams
            (testnetWorld [(btcdConfPath, confUserOnly)]) btcdConfPath [])
     = Err "unable to find rpcuser in config".
Proof.
  repeat split; reflexivity.
Qed.

(** ** TLS material of the btcd connection *)

Lemma DecodeString_nonempty raw bytes :
  nonEmpty raw = true -> DecodeString raw = Some bytes -> bytes <> "".
Proof.
  destruct raw as [| a [| b raw]]; simpl; try discriminate.
  intros _.
  destruct (hexVal a), (hexVal b), (DecodeString raw);
    intros H; inversion H; discriminate.
Qed.

(** C6, as stated, fails: no raw certificate is set and the
    certificate file is empty, so neither source yields a byte, and
    the factory still succeeds, handing the empty certificate to its
    collaborators. *)
Lemma C6_counterexample :
  fst (rpcCertOf (testnetWorld [(certPath, "")])
         (btcdConfOf "localhost" "alice" "secret" certPath "") [])
  = Ok ""
  /\ snd (fst (btcd_NewChainControlFromConfig
                 (testnetWorld [(certPath, "")])
                 (btcdConfOf "localhost" "alice" "secret" certPath "")
                 (argsWith (chainConfigOf true false false) inactiveChain)
                 []))
     = None
  /\ certificatesOf
       (fst (btcd_NewChainControlFromConfig
               (testnetWorld [(certPath, "")])
               (btcdConfOf "localhost" "alice" "secret" certPath "")
               (argsWith (chainConfigOf true false false) inactiveChain)
               []))
     = Some "".
Proof.
  repeat split; reflexivity.
Qed.

(** C6, amended. The btcd factory takes the certificate from one
    source only: the raw hexadecimal setting when it is set, the
    certificate file otherwise.  With both unset, or with a raw
    setting that does not decode, whatever the file, or with no raw
    setting and a file that cannot be opened, the factory fails with
    that step's error (the decoder's, for the raw setting) and returns
    nothing.  When it succeeds the
    certificate is the decoded raw setting, which is not empty, or the
    content of the file, which may be. *)
Theorem C6_tls_material :
  forall (w : World) (conf : btcdConfig) (a : factoryArgs)
         (t : list Event) (cc0 : chainControl),
    initialControl w a = Ok cc0 ->
    (nonEmpty (btcd_RawRPCCert conf) = false ->
     btcd_RPCCert conf = "" ->
     fst (btcd_NewChainControlFromConfig w conf a t)
     = (None, None, Some "open : no such file or directory"))
    /\ (nonEmpty (btcd_RawRPCCert conf) = true ->
        DecodeString (btcd_RawRPCCert conf) = None ->
        btcd_NewChainControlFromConfig w conf a t
        = ((None, None, Some (hexDecodeError (btcd_RawRPCCert conf))), t))
    /\ (forall err : error,
          nonEmpty (btcd_RawRPCCert conf) = false ->
          btcd_RPCCert conf <> "" ->
          open_file w (btcd_RPCCert conf) = Some err ->
          fst (btcd_NewChainControlFromConfig w conf a t)
          = (None, None, Some err))
    /\ (forall (cc : chainControl) (cleanUp : option CleanUp),
          fst (btcd_NewChainControlFromConfig w conf a t)
          = (Some cc, cleanUp, None) ->
          exists bytes : string,
            certificatesOf (fst (btcd_NewChainControlFromConfig w conf a t))
            = Some bytes
            /\ if nonEmpty (btcd_RawRPCCert conf)
               then DecodeString (btcd_RawRPCCert conf) = Some bytes
                    /\ bytes <> ""
               else read_all w (btcd_RPCCert conf) = Ok bytes).
Proof.
  intros w conf a t cc0 Hcc.
  unfold btcd_NewChainControlFromConfig, rpcCertOf, os_Open,
    ioutil_ReadAll, openWallet.
  unfold_io. rewrite Hcc. simpl.
  repeat split.
  - intros Hraw Hcert. rewrite Hraw, Hcert. reflexivity.
  - intros Hraw Hdec. rewrite Hraw, Hdec. reflexivity.
  - intros err Hraw Hcert Hopen. rewrite Hraw.
    apply String.eqb_neq in Hcert. rewrite Hcert, Hopen. reflexivity.
  - intros cc cleanUp. unfold certificatesOf.
    destruct (nonEmpty (btcd_RawRPCCert conf)) eqn:Hraw.
    + destruct (DecodeString (btcd_RawRPCCert conf)) as [bytes |] eqn:Hdec;
        simpl; [| discriminate].
      split_outcomes; intros H; inversion H; subst; clear H;
        simpl; exists bytes; repeat split;
        eauto using DecodeString_nonempty.
    + simpl. split_outcomes; intros H; inversion H; subst; clear H;
        simpl; eexists; split; reflexivity.
Qed.

Lemma C6_witness :
  btcd_NewChainControlFromConfig (testnetWorld [(certPath, "cert")])
    (btcdConfOf "localhost" "alice" "secret" certPath "4a4g")
    (argsWith (chainConfigOf true false false) inactiveChain) []
  = ((None, None, Some "encoding/hex: invalid byte: U+0067 'g'"), []).
Proof.
  destruct (C6_tls_material (testnetWorld [(certPath, "cert")])
              (btcdConfOf "localhost" "alice" "secret" certPath "4a4g")
              (argsWith (chainConfigOf true false false) inactiveChain) []
              (emptyControl
                 (policyOf (chainConfigOf true false false))
                 (StaticFeeEstimator 50))
              eq_refl) as [_ [H _]].
  apply H; reflexivity.
Defined.

(** * Further properties of the backends *)

(** ** What the pattern captures *)

Lemma takeNonSpace_noSpace s : noSpace (takeNonSpace s) = true.
Proof.
  induction s as [| c s IH]; [reflexivity |].
  simpl. destruct (isSpace c) eqn:E; [reflexivity |].
  unfold noSpace in *. simpl. rewrite E. exact IH.
Qed.

Lemma matchHere_value key s v :
  matchHere key s = Some v -> isValue v = true.
Proof.
  unfold matchHere.
  destruct (stripPrefix key (skipSpace s)) as [r1 |]; [| discriminate].
  destruct (skipSpace r1) as [| c r2]; [discriminate |].
  destruct (Ascii.eqb c "="); [| discriminate].
  pose proof (takeNonSpace_noSpace (skipSpace r2)) as Hn.
  destruct (takeNonSpace (skipSpace r2)) as [| x y]; [discriminate |].
  intros H; inversion H; subst.
  unfold isValue. rewrite Hn. reflexivity.
Qed.

Lemma findFrom_value key bol s v :
  findFrom key bol s = Some v -> isValue v = true.
Proof.
  revert bol. induction s as [| c s IH]; intros bol; simpl.
  - destruct bol; [| discriminate].
    destruct (matchHere key "") eqn:E; [| discriminate].
    intros H; inversion H; subst. eapply matchHere_value, E.
  - destruct bol.
    + destruct (matchHere key (String c s)) eqn:E.
      * intros H; inversion H; subst. eapply matchHere_value, E.
      * apply IH.
    + apply IH.
Qed.

Lemma FindSubmatch_value key s v :
  FindSubmatch key s = Some v -> isValue v = true.
Proof. apply findFrom_value. Qed.

Lemma extractBtcd_isValue w path u p t t' :
  extractBtcdRPCParams w path t = (Ok (u, p), t') ->
  isValue u = true /\ isValue p = true.
Proof.
  unfold extractBtcdRPCParams, deferClose, os_Open, ioutil_ReadAll.
  unfold_io. simpl.
  destruct (String.eqb path ""); [discriminate |].
  destruct (open_file w path); [discriminate |]. simpl.
  destruct (read_all w path) as [contents | e]; [| discriminate]. simpl.
  destruct (FindSubmatch "rpcuser" contents) as [u' |] eqn:Eu;
    [| discriminate].
  destruct (FindSubmatch "rpcpass" contents) as [p' |] eqn:Ep;
    [| discriminate].
  simpl. intros H; inversion H; subst.
  split; eapply FindSubmatch_value; eassumption.
Qed.

Lemma extractBitcoind_isValue w path u p zmq t t' :
  extractBitcoindRPCParams w path t = (Ok (u, p, zmq), t') ->
  isValue zmq = true.
Proof.
  unfold extractBitcoindRPCParams, deferClose, os_Open, ioutil_ReadAll,
    ioutil_ReadFile.
  unfold_io. simpl.
  destruct (String.eqb path ""); [discriminate |].
  destruct (open_file w path); [discriminate |]. simpl.
  destruct (read_all w path) as [contents | e]; [| discriminate]. simpl.
  destruct (FindSubmatch "zmqpubrawblock" contents) as [z |] eqn:Ez;
    [| discriminate].
  apply FindSubmatch_value in Ez. simpl.
  split_outcomes; intros H; inversion H; subst; exact Ez.
Qed.

Lemma isValue_nonEmpty v : isValue v = true -> nonEmpty v = true.
Proof.
  unfold isValue. intros H. apply andb_true_iff in H. tauto.
Qed.

(** X1. Whatever the configuration file holds, the user and the
    password that btcd's discovery returns are never empty and hold no
    white space. *)
Theorem extractBtcd_values_nonempty :
  forall (w : World) (path u p : string) (t : list Event),
    fst (extractBtcdRPCParams w path t) = Ok (u, p) ->
    isValue u = true /\ isValue p = true.
Proof.
  intros w path u p t H.
  destruct (extractBtcdRPCParams w path t) as [r t'] eqn:E.
  simpl in H. subst r. eapply extractBtcd_isValue, E.
Qed.

Lemma extractBtcd_values_nonempty_witness :
  isValue "alice" = true /\ isValue "secret" = true.
Proof.
  apply (extractBtcd_values_nonempty
           (testnetWorld
              [(btcdConfPath,
                renderConf [("rpcuser", "alice"); ("rpcpass", "secret")])])
           btcdConfPath "alice" "secret" []).
  reflexivity.
Defined.

(** X2. Whatever the configuration file and the cookie hold, the ZMQ
    path that bitcoind's discovery returns is never empty and holds no
    white space. *)
Theorem extractBitcoind_zmq_nonempty :
  forall (w : World) (path u p zmq : string) (t : list Event),
    fst (extractBitcoindRPCParams w path t) = Ok (u, p, zmq) ->
    isValue zmq = true.
Proof.
  intros w path u p zmq t H.
  destruct (extractBitcoindRPCParams w path t) as [r t'] eqn:E.
  simpl in H. subst r. eapply extractBitcoind_isValue, E.
Qed.

Lemma extractBitcoind_zmq_nonempty_witness :
  isValue "tcp://127.0.0.1:28332" = true.
Proof.
  apply (extractBitcoind_zmq_nonempty
           (testnetWorld [(confPath, confWithZmq);
                          (cookiePath, "bob:hunter2")])
           confPath "bob" "hunter2" "tcp://127.0.0.1:28332" []).
  reflexivity.
Defined.

(** ** White space around a setting *)

Lemma allSpace_cons c s :
  allSpace (String c s) = true -> isSpace c = true /\ allSpace s = true.
Proof.
  unfold allSpace; simpl. intros H. apply andb_true_iff in H. exact H.
Qed.

Lemma skipSpace_allSpace sp r :
  allSpace sp = true -> skipSpace (sp ++ r) = skipSpace r.
Proof.
  induction sp as [| c sp IH]; intros H; [reflexivity |].
  apply allSpace_cons in H. destruct H as [Hc Hs].
  simpl. rewrite Hc. apply IH, Hs.
Qed.

Lemma stripPrefix_app key r : stripPrefix key (key ++ r) = Some r.
Proof.
  induction key as [| c key IH]; simpl.
  - destruct r; reflexivity.
  - rewrite Ascii.eqb_refl. exact IH.
Qed.

Lemma skipSpace_key key r :
  isKey key = true -> key <> "" -> skipSpace (key ++ r) = (key ++ r)%string.
Proof.
  intros Hk Hne. destruct key as [| c key]; [congruence |].
  apply isKey_cons in Hk. destruct Hk as [Hc _].
  simpl. rewrite Hc. reflexivity.
Qed.

(** X3. The pattern tolerates white space: a text that starts with a
    setting of the key is matched, and gives the setting's value,
    whatever white space (blanks, tabs, even line breaks) stands
    before the key, around the equals sign and before the value. *)
Theorem FindSubmatch_whitespace_tolerant :
  forall (key v s1 s2 s3 rest : string),
    isKey key = true -> key <> "" -> isValue v = true ->
    allSpace s1 = true -> allSpace s2 = true -> allSpace s3 = true ->
    FindSubmatch key
      (s1 ++ key ++ s2 ++ "=" ++ s3 ++ v ++ newline ++ rest)
    = Some v.
Proof.
  intros key v s1 s2 s3 rest Hk Hne Hv H1 H2 H3.
  assert (Hm : matchHere key
                 (s1 ++ key ++ s2 ++ "=" ++ s3 ++ v ++ newline ++ rest)
               = Some v).
  { unfold matchHere.
    rewrite skipSpace_allSpace by exact H1.
    rewrite skipSpace_key by assumption.
    rewrite stripPrefix_app.
    rewrite skipSpace_allSpace by exact H2.
    change (("=" ++ s3 ++ v ++ newline ++ rest)%string)
      with (String "=" (s3 ++ v ++ newline ++ rest)).
    rewrite skipSpace_head by reflexivity.
    rewrite Ascii.eqb_refl.
    assert (Hs : skipSpace (s3 ++ v ++ newline ++ rest)
                 = skipSpace (v ++ newline ++ rest))
      by (apply skipSpace_allSpace, H3).
    rewrite Hs. apply afterKey_value, Hv. }
  unfold FindSubmatch.
  destruct (s1 ++ key ++ s2 ++ "=" ++ s3 ++ v ++ newline ++ rest)%string;
    simpl; rewrite Hm; reflexivity.
Qed.

Lemma FindSubmatch_whitespace_tolerant_witness :
  FindSubmatch "rpcuser"
    ("  " ++ "rpcuser" ++ " " ++ "=" ++ "   " ++ "alice" ++ newline ++
     "rpcpassword=secret")
  = Some "alice".
Proof.
  apply (FindSubmatch_whitespace_tolerant
           "rpcuser" "alice" "  " " " "   " "rpcpassword=secret");
    first [ reflexivity | discriminate ].
Defined.

(** *** A setting after lines that do not set its key *)

Lemma takeNonSpace_before_post v post :
  noSpace v = true -> endsValue post = true ->
  takeNonSpace (v ++ post) = v.
Proof.
  intros Hv Hp. induction v as [| c v IH].
  - destruct post as [| c r]; [reflexivity |].
    simpl in *. rewrite Hp. reflexivity.
  - apply noSpace_cons in Hv. destruct Hv as [Hc Hv].
    simpl. rewrite Hc. f_equal. apply IH, Hv.
Qed.

Lemma matchHere_setting key v post :
  isKey key = true -> key <> "" -> isValue v = true ->
  endsValue post = true ->
  matchHere key (key ++ "=" ++ v ++ post) = Some v.
Proof.
  intros Hk Hne Hv Hp. unfold matchHere.
  rewrite skipSpace_key by assumption.
  rewrite stripPrefix_app.
  change (("=" ++ v ++ post)%string) with (String "=" (v ++ post)).
  rewrite skipSpace_head by reflexivity.
  rewrite Ascii.eqb_refl.
  unfold isValue in Hv. apply andb_true_iff in Hv. destruct Hv as [Hs Hn].
  destruct v as [| c v]; [discriminate |].
  pose proof (noSpace_cons _ _ Hs) as [Hc _].
  change ((String c v ++ post)%string) with (String c (v ++ post)).
  rewrite skipSpace_head by exact Hc.
  change (String c (v ++ post)) with ((String c v ++ post)%string).
  rewrite takeNonSpace_before_post by assumption. reflexivity.
Qed.

Lemma findFrom_at_match key s v :
  matchHere key s = Some v -> findFrom key true s = Some v.
Proof.
  intros H. destruct s; simpl; rewrite H; reflexivity.
Qed.

Lemma skipSpace_blank_or_not pre L :
  (skipSpace pre = "" /\ skipSpace (pre ++ L) = skipSpace L)
  \/ (skipSpace pre <> ""
      /\ skipSpace (pre ++ L) = (skipSpace pre ++ L)%string).
Proof.
  induction pre as [| c pre IH]; simpl.
  - left. auto.
  - destruct (isSpace c); [exact IH |].
    right. split; [discriminate | reflexivity].
Qed.

Lemma bolAfter_skipSpace pre :
  skipSpace pre <> "" ->
  bolAfter false (skipSpace pre) = bolAfter false pre.
Proof.
  induction pre as [| c pre IH]; simpl; [congruence |].
  destruct (isSpace c) eqn:E; [| reflexivity].
  intros H. rewrite (IH H).
  destruct pre as [| d pre]; [simpl in H; congruence | reflexivity].
Qed.

Lemma stripPrefix_stops_at_newline key x L :
  isKey key = true ->
  stripPrefix key x = None ->
  bolAfter false x = true ->
  stripPrefix key (x ++ L) = None.
Proof.
  revert key. induction x as [| c x IH]; intros key Hk Hs Hl.
  - discriminate.
  - destruct key as [| a key]; [discriminate |].
    apply isKey_cons in Hk. destruct Hk as [Ha [_ Hk]].
    simpl in *. destruct (Ascii.eqb a c) eqn:E; [| reflexivity].
    apply Ascii.eqb_eq in E. subst c.
    destruct x as [| d x].
    + simpl in Hl. apply Ascii.eqb_eq in Hl. subst a. discriminate.
    + apply IH; assumption.
Qed.

Lemma stripPrefix_Some_app key x r L :
  stripPrefix key x = Some r ->
  stripPrefix key (x ++ L) = Some (r ++ L)%string.
Proof.
  revert x. induction key as [| a key IH]; intros x H.
  - simpl in H. destruct x; inversion H; subst; simpl;
      destruct L; reflexivity.
  - destruct x as [| c x]; [discriminate |].
    simpl in *. destruct (Ascii.eqb a c); [| discriminate].
    apply IH, H.
Qed.

Lemma matchHere_before_setting key v pre post :
  isKey key = true -> key <> "" -> isValue v = true ->
  endsValue post = true ->
  bolAfter false pre = true ->
  setsKey key (skipSpace pre) = false ->
  matchHere key (pre ++ key ++ "=" ++ v ++ post) = None
  \/ matchHere key (pre ++ key ++ "=" ++ v ++ post) = Some v.
Proof.
  intros Hk Hne Hv Hp Hl Hs.
  destruct (skipSpace_blank_or_not pre (key ++ "=" ++ v ++ post))
    as [[Hb He] | [Hb He]].
  - right. unfold matchHere. rewrite He.
    apply (matchHere_setting key v post); assumption.
  - left. unfold matchHere. rewrite He.
    unfold setsKey in Hs.
    destruct (stripPrefix key (skipSpace pre)) as [r |] eqn:E.
    + rewrite (stripPrefix_Some_app _ _ _ _ E).
      destruct (skipSpace_blank_or_not r (key ++ "=" ++ v ++ post))
        as [[Hrb Hre] | [Hrb Hre]].
      * rewrite Hrb in Hs. discriminate.
      * rewrite Hre.
        destruct (skipSpace r) as [| c r']; [congruence |].
        simpl. rewrite Hs. reflexivity.
    + rewrite stripPrefix_stops_at_newline; try assumption; [reflexivity |].
      rewrite bolAfter_skipSpace by exact Hb. exact Hl.
Qed.

Lemma findFrom_before_setting key v post :
  isKey key = true -> key <> "" -> isValue v = true ->
  endsValue post = true ->
  forall pre bol,
    bolAfter bol pre = true ->
    keyAtLineStart key bol pre = false ->
    findFrom key bol (pre ++ key ++ "=" ++ v ++ post) = Some v.
Proof.
  intros Hk Hne Hv Hp.
  induction pre as [| c pre IH]; intros bol Hl Hn.
  - simpl in Hl. subst bol. apply findFrom_at_match.
    apply (matchHere_setting key v post); assumption.
  - cbn [keyAtLineStart] in Hn. apply orb_false_iff in Hn.
    destruct Hn as [Hhere Hrest].
    cbn [bolAfter] in Hl.
    specialize (IH _ Hl Hrest).
    change ((String c pre ++ key ++ "=" ++ v ++ post)%string)
      with (String c (pre ++ key ++ "=" ++ v ++ post)).
    cbn [findFrom]. destruct bol; [| exact IH].
    simpl in Hhere.
    change (String c (pre ++ key ++ "=" ++ v ++ post))
      with ((String c pre ++ key ++ "=" ++ v ++ post)%string).
    destruct (matchHere_before_setting key v (String c pre) post)
      as [Hm | Hm]; try assumption; rewrite Hm; [exact IH | reflexivity].
Qed.

(** In a text where the line [key=v] follows complete lines none of
    which begins, after white space, with a setting of the key, the
    pattern finds [v], whatever else those lines hold (comments, blank
    lines, settings of other keys, of longer keys too) and whatever
    follows the value after white space or a line break. *)
Lemma FindSubmatch_first_setting key v pre post :
  isKey key = true -> key <> "" -> isValue v = true ->
  endsValue post = true ->
  bolAfter true pre = true ->
  keyAtLineStart key true pre = false ->
  FindSubmatch key (pre ++ key ++ "=" ++ v ++ post) = Some v.
Proof.
  intros. unfold FindSubmatch.
  apply findFrom_before_setting; assumption.
Qed.

Example first_setting_after_other_lines :
  FindSubmatch "rpcuser"
    (("# bitcoind settings" ++ newline ++ newline ++
      "rpcusername=bob" ++ newline)
     ++ "rpcuser" ++ "=" ++ "alice"
     ++ (newline ++ "rpcpassword=secret"))
  = Some "alice".
Proof.
  apply FindSubmatch_first_setting; first [ reflexivity | discriminate ].
Qed.

(** So a text that holds the lines [rpcuser=alice] and
    [rpcpassword=secret], each after complete lines that do not set
    its key, and a ZMQ path gives bitcoind's discovery alice and
    secret when there is no cookie. *)
Lemma extractBitcoind_alice_secret_lines :
  forall (w : World) (path contents zmq : string) (t : list Event)
         (preU postU preP postP : string),
    path <> "" ->
    open_file w path = None ->
    read_all w path = Ok contents ->
    open_file w (cookiePathOf w path contents) <> None ->
    FindSubmatch "zmqpubrawblock" contents = Some zmq ->
    contents = (preU ++ "rpcuser" ++ "=" ++ "alice" ++ postU)%string ->
    bolAfter true preU = true ->
    keyAtLineStart "rpcuser" true preU = false ->
    endsValue postU = true ->
    contents = (preP ++ "rpcpassword" ++ "=" ++ "secret" ++ postP)%string ->
    bolAfter true preP = true ->
    keyAtLineStart "rpcpassword" true preP = false ->
    endsValue postP = true ->
    fst (extractBitcoindRPCParams w path t) = Ok ("alice", "secret", zmq).
Proof.
  intros w path contents zmq t preU postU preP postP
         Hp Ho Hr Hc Hz HU HbU HkU HeU HP HbP HkP HeP.
  rewrite (extractBitcoind_missing_key w path contents t Hp Ho Hr Hc).
  rewrite Hz.
  assert (Hu : FindSubmatch "rpcuser" contents = Some "alice")
    by (rewrite HU; apply FindSubmatch_first_setting;
        first [ assumption | reflexivity | discriminate ]).
  assert (Hpw : FindSubmatch "rpcpassword" contents = Some "secret")
    by (rewrite HP; apply FindSubmatch_first_setting;
        first [ assumption | reflexivity | discriminate ]).
  rewrite Hu, Hpw. reflexivity.
Qed.

(** ** ParseRPCParams, further *)

(** X4. On a simulation network a full-node variant with no credential
    set is refused: [ParseRPCParams] returns the simnet error, leaves
    the configuration as it was and touches no file, even when a
    configuration file of the node exists. *)
Theorem ParseRPCParams_simnet_refused :
  forall (w : World) (b : backendConfig) (cConfig : chainConfig)
         (net : chainCode) (funcName : string) (t : list Event),
    isFullNode b = true ->
    someSet b = false ->
    SimNet cConfig = true ->
    ParseRPCParams w b cConfig net funcName t
    = ((b, Some (simnetError funcName)), t).
Proof.
  intros w [conf | conf | conf] cConfig net funcName t Hf Hs Hsim;
    try discriminate;
    unfold someSet, requiredFields in Hs; simpl in Hs.
  - unfold ParseRPCParams, bitcoind_ParseRPCParams, bind.
    destruct (nonEmpty (bitcoind_RPCUser conf)),
             (nonEmpty (bitcoind_RPCPass conf)),
             (nonEmpty (bitcoind_ZMQPath conf)); try discriminate.
    simpl. destruct net; rewrite Hsim; reflexivity.
  - unfold ParseRPCParams, btcd_ParseRPCParams, bind.
    destruct (nonEmpty (btcd_RPCUser conf)),
             (nonEmpty (btcd_RPCPass conf)); try discriminate.
    simpl. destruct net; rewrite Hsim; reflexivity.
Qed.

Lemma ParseRPCParams_simnet_refused_witness :
  ParseRPCParams
    (worldWith bitcoinChain simnet
       [(btcdConfPath,
         renderConf [("rpcuser", "alice"); ("rpcpass", "secret")])]
       false None)
    (BtcdBackend (btcdConfOf "localhost" "" "" "" ""))
    (chainConfigOf true true false) bitcoinChain "loadConfig" []
  = ((BtcdBackend (btcdConfOf "localhost" "" "" "" ""),
      Some (simnetError "loadConfig")), []).
Proof.
  apply (ParseRPCParams_simnet_refused
           (worldWith bitcoinChain simnet
              [(btcdConfPath,
                renderConf [("rpcuser", "alice"); ("rpcpass", "secret")])]
              false None)
           (BtcdBackend (btcdConfOf "localhost" "" "" "" "")));
    reflexivity.
Defined.

(** X5. [ParseRPCParams] changes the configuration only when it
    succeeds: whenever it returns an error, whichever the variant and
    whichever the step that failed, the configuration is the one it
    was given. *)
Theorem ParseRPCParams_error_keeps_configuration :
  forall (w : World) (b b' : backendConfig) (cConfig : chainConfig)
         (net : chainCode) (funcName : string) (t t' : list Event)
         (err : error),
    ParseRPCParams w b cConfig net funcName t = ((b', Some err), t') ->
    b' = b.
Proof.
  intros w [conf | conf | conf] b' cConfig net funcName t t' err;
    unfold ParseRPCParams, bitcoind_ParseRPCParams, btcd_ParseRPCParams,
      neutrino_ParseRPCParams.
  - unfold bind, ret, emit.
    destruct (nonEmpty (bitcoind_RPCUser conf)),
             (nonEmpty (bitcoind_RPCPass conf)),
             (nonEmpty (bitcoind_ZMQPath conf)); simpl;
      try (intros H; inversion H; reflexivity);
      destruct net; destruct (SimNet cConfig); simpl;
      try (intros H; inversion H; reflexivity);
      match goal with
      | |- context [extractBitcoindRPCParams ?w ?p ?t0] =>
          destruct (extractBitcoindRPCParams w p t0) as [[[[u p0] z] | e] t1]
      end; simpl; intros H; inversion H; reflexivity.
  - unfold bind, ret, emit.
    destruct (nonEmpty (btcd_RPCUser conf)),
             (nonEmpty (btcd_RPCPass conf)); simpl;
      try (intros H; inversion H; reflexivity);
      destruct net; destruct (SimNet cConfig); simpl;
      try (intros H; inversion H; reflexivity);
      match goal with
      | |- context [extractBtcdRPCParams ?w ?p ?t0] =>
          destruct (extractBtcdRPCParams w p t0) as [[[u p0] | e] t1]
      end; simpl; intros H; inversion H; reflexivity.
  - unfold bind, ret. simpl. intros H; inversion H.
Qed.

Lemma ParseRPCParams_error_keeps_configuration_witness :
  BitcoindBackend (bitcoindConfOf "localhost" "" "" "")
  = BitcoindBackend (bitcoindConfOf "localhost" "" "" "").
Proof.
  apply (ParseRPCParams_error_keeps_configuration
           (testnetWorld [(confPath, confNoZmq)])
           (BitcoindBackend (bitcoindConfOf "localhost" "" "" ""))
           (BitcoindBackend (bitcoindConfOf "localhost" "" "" ""))
           (chainConfigOf true false false) bitcoinChain "loadConfig" []
           [EvPrint ("Attempting automatic RPC configuration to btcd"
                     ++ newline);
            EvOpen confPath; EvReadAll confPath; EvClose confPath]
           (extractError "unable to find zmqpubrawblock in config")).
  reflexivity.
Defined.

(** X6. When btcd's [ParseRPCParams] returns without error, the user
    and the password of the configuration are both set, whether they
    were given or discovered, and nothing else of the configuration
    has changed; a second call therefore returns at once, with the
    same configuration and without any I/O. *)
Theorem btcd_ParseRPCParams_success :
  forall (w : World) (conf conf' : btcdConfig) (cConfig : chainConfig)
         (net : chainCode) (funcName : string) (t t' : list Event),
    btcd_ParseRPCParams w conf cConfig net funcName t
    = ((conf', None), t') ->
    allSet (BtcdBackend conf') = true
    /\ btcd_Dir conf' = btcd_Dir conf
    /\ btcd_RPCHost conf' = btcd_RPCHost conf
    /\ btcd_RPCCert conf' = btcd_RPCCert conf
    /\ btcd_RawRPCCert conf' = btcd_RawRPCCert conf
    /\ (forall cConfig2 net2 funcName2 t2,
          btcd_ParseRPCParams w conf' cConfig2 net2 funcName2 t2
          = ((conf', None), t2)).
Proof.
  intros w conf conf' cConfig net funcName t t' H.
  assert (G : allSet (BtcdBackend conf') = true
              /\ btcd_Dir conf' = btcd_Dir conf
              /\ btcd_RPCHost conf' = btcd_RPCHost conf
              /\ btcd_RPCCert conf' = btcd_RPCCert conf
              /\ btcd_RawRPCCert conf' = btcd_RawRPCCert conf).
  { revert H. unfold btcd_ParseRPCParams, bind, ret, emit.
    unfold allSet, requiredFields.
    destruct (nonEmpty (btcd_RPCUser conf)) eqn:Eu,
             (nonEmpty (btcd_RPCPass conf)) eqn:Ep; simpl;
      try (intros H; inversion H; subst; simpl; rewrite ?Eu, ?Ep; auto; fail);
      try (intros H; inversion H; fail).
    destruct net; destruct (SimNet cConfig); simpl;
      try (intros H; inversion H; fail);
      match goal with
      | |- context [extractBtcdRPCParams ?w ?p ?t0] =>
          destruct (extractBtcdRPCParams w p t0) as [[[u p0] | e] t1] eqn:E
      end; simpl; intros H; inversion H; subst; simpl;
      apply extractBtcd_isValue in E; destruct E as [E1 E2];
      rewrite (isValue_nonEmpty _ E1), (isValue_nonEmpty _ E2); auto. }
  destruct G as [Ha G]. repeat split; try tauto.
  intros cConfig2 net2 funcName2 t2.
  unfold allSet, requiredFields in Ha. simpl in Ha.
  unfold btcd_ParseRPCParams.
  destruct (nonEmpty (btcd_RPCUser conf')); [| discriminate].
  destruct (nonEmpty (btcd_RPCPass conf')); [| discriminate].
  reflexivity.
Qed.

Lemma btcd_ParseRPCParams_success_witness :
  allSet (BtcdBackend (btcdConfOf "localhost" "alice" "secret" certPath ""))
  = true.
Proof.
  destruct (btcd_ParseRPCParams_success
              (testnetWorld
                 [(btcdConfPath,
                   renderConf [("rpcuser", "alice");
                               ("rpcpass", "secret")])])
              (btcdConfOf "localhost" "" "" certPath "")
              (btcdConfOf "localhost" "alice" "secret" certPath "")
              (chainConfigOf true false false) bitcoinChain "loadConfig" []
              [EvPrint ("Attempting automatic RPC configuration to btcd"
                        ++ newline);
               EvOpen btcdConfPath; EvReadAll btcdConfPath;
               EvClose btcdConfPath;
               EvPrint ("Automatically obtained btcd's RPC credentials"
                        ++ newline)]
              eq_refl) as [H _].
  exact H.
Defined.

(** X7. When bitcoind's [ParseRPCParams] returns without error, the
    ZMQ path of the configuration is set, and the directory and the
    host are the ones it was given. *)
Theorem bitcoind_ParseRPCParams_success :
  forall (w : World) (conf conf' : bitcoindConfig) (cConfig : chainConfig)
         (net : chainCode) (funcName : string) (t t' : list Event),
    bitcoind_ParseRPCParams w conf cConfig net funcName t
    = ((conf', None), t') ->
    nonEmpty (bitcoind_ZMQPath conf') = true
    /\ bitcoind_Dir conf' = bitcoind_Dir conf
    /\ bitcoind_RPCHost conf' = bitcoind_RPCHost conf.
Proof.
  intros w conf conf' cConfig net funcName t t'.
  unfold bitcoind_ParseRPCParams, bind, ret, emit.
  destruct (nonEmpty (bitcoind_RPCUser conf)) eqn:Eu,
           (nonEmpty (bitcoind_RPCPass conf)) eqn:Ep,
           (nonEmpty (bitcoind_ZMQPath conf)) eqn:Ez; simpl;
    try (intros H; inversion H; subst; auto; fail);
    try (intros H; inversion H; fail).
  destruct net; destruct (SimNet cConfig); simpl;
    try (intros H; inversion H; fail);
    match goal with
    | |- context [extractBitcoindRPCParams ?w ?p ?t0] =>
        destruct (extractBitcoindRPCParams w p t0)
          as [[[[u p0] z] | e] t1] eqn:E
    end; simpl; intros H; inversion H; subst; simpl;
    apply extractBitcoind_isValue in E;
    rewrite (isValue_nonEmpty _ E); auto.
Qed.

Lemma bitcoind_ParseRPCParams_success_witness :
  nonEmpty "tcp://127.0.0.1:28332" = true
  /\ "/home/u/.bitcoin" = "/home/u/.bitcoin"
  /\ "localhost" = "localhost".
Proof.
  apply (bitcoind_ParseRPCParams_success
           (testnetWorld [(confPath, confWithZmq);
                          (cookiePath, "bob:hunter2")])
           (bitcoindConfOf "localhost" "" "" "")
           (bitcoindConfOf "localhost" "bob" "hunter2"
              "tcp://127.0.0.1:28332")
           (chainConfigOf true false false) bitcoinChain "loadConfig" []
           [EvPrint ("Attempting automatic RPC configuration to btcd"
                     ++ newline);
            EvOpen confPath; EvReadAll confPath; EvReadFile cookiePath;
            EvClose confPath;
            EvPrint ("Automatically obtained btcd's RPC credentials"
                     ++ newline)]).
  reflexivity.
Defined.

(** ** The cookie *)

Lemma splitByte_no_sep sep s :
  containsByte sep s = false -> splitByte sep s = [s].
Proof.
  induction s as [| c s IH]; simpl; [reflexivity |].
  destruct (Ascii.eqb c sep); [discriminate |].
  intros H. rewrite IH by exact H. reflexivity.
Qed.

Lemma splitByte_first_field sep u p :
  containsByte sep u = false ->
  splitByte sep (u ++ String sep p) = u :: splitByte sep p.
Proof.
  induction u as [| c u IH]; simpl.
  - intros _. rewrite Ascii.eqb_refl. reflexivity.
  - destruct (Ascii.eqb c sep); [discriminate |].
    intros H. rewrite IH by exact H. reflexivity.
Qed.

Lemma splitByte_length sep s :
  length (splitByte sep s) = S (countByte sep s).
Proof.
  induction s as [| c s IH]; simpl; [reflexivity |].
  destruct (Ascii.eqb c sep); simpl.
  - rewrite IH. reflexivity.
  - destruct (splitByte sep s); simpl in *; [discriminate | exact IH].
Qed.

Lemma extractBitcoind_result w path contents t :
  opens w path = true ->
  read_all w path = Ok contents ->
  fst (extractBitcoindRPCParams w path t)
  = match FindSubmatch "zmqpubrawblock" contents with
    | None => Err "unable to find zmqpubrawblock in config"
    | Some zmq =>
        match
          match cookieOf w path contents with
          | Some c =>
              match splitByte ":" c with
              | [u; p] => Some (u, p)
              | _ => None
              end
          | None => None
          end
        with
        | Some (u, p) => Ok (u, p, zmq)
        | None => bitcoindScan contents
        end
    end.
Proof.
  unfold opens. intros Ho Hr.
  apply andb_true_iff in Ho. destruct Ho as [Hp Ho].
  apply negb_true_iff in Hp.
  unfold extractBitcoindRPCParams, deferClose, os_Open, ioutil_ReadAll,
    ioutil_ReadFile, cookieOf, opens, bitcoindScan.
  unfold_io. rewrite Hp.
  destruct (open_file w path); [discriminate |]. simpl.
  rewrite Hr. simpl.
  destruct (FindSubmatch "zmqpubrawblock" contents); [| reflexivity].
  simpl. rewrite cookiePathOf_nonempty. simpl.
  destruct (open_file w (cookiePathOf w path contents)); simpl.
  - destruct (FindSubmatch "rpcuser" contents); [| reflexivity].
    destruct (FindSubmatch "rpcpassword" contents); reflexivity.
  - destruct (read_all w (cookiePathOf w path contents)) as [c | e]; simpl.
    + destruct (splitByte ":" c) as [| u [| p [| x l]]]; simpl;
        try reflexivity;
        destruct (FindSubmatch "rpcuser" contents); try reflexivity;
        destruct (FindSubmatch "rpcpassword" contents); reflexivity.
    + destruct (FindSubmatch "rpcuser" contents); [| reflexivity].
      destruct (FindSubmatch "rpcpassword" contents); reflexivity.
Qed.

(** X8. A cookie is cut at its colon and nothing is trimmed: when the
    cookie reads [u:p], with no colon in [u] nor in [p], and the
    configuration text has a ZMQ path, bitcoind's discovery returns
    [u] and [p] byte for byte, be they empty or ending in a line
    break. *)
Theorem cookie_cut_at_colon :
  forall (w : World) (path contents zmq u p : string) (t : list Event),
    opens w path = true ->
    read_all w path = Ok contents ->
    FindSubmatch "zmqpubrawblock" contents = Some zmq ->
    cookieOf w path contents = Some (u ++ ":" ++ p) ->
    containsByte ":" u = false ->
    containsByte ":" p = false ->
    fst (extractBitcoindRPCParams w path t) = Ok (u, p, zmq).
Proof.
  intros w path contents zmq u p t Ho Hr Hz Hc Hu Hp.
  rewrite (extractBitcoind_result w path contents t Ho Hr), Hz, Hc.
  change (u ++ ":" ++ p)%string with (u ++ String ":" p)%string.
  rewrite splitByte_first_field by exact Hu.
  rewrite splitByte_no_sep by exact Hp. reflexivity.
Qed.

Lemma cookie_cut_at_colon_witness :
  fst (extractBitcoindRPCParams
         (testnetWorld [(confPath, confWithZmq);
                        (cookiePath, "__cookie__" ++ ":" ++ "f00d" ++ newline)])
         confPath [])
  = Ok ("__cookie__", "f00d" ++ newline, "tcp://127.0.0.1:28332").
Proof.
  apply (cookie_cut_at_colon
           (testnetWorld [(confPath, confWithZmq);
                          (cookiePath,
                           "__cookie__" ++ ":" ++ "f00d" ++ newline)])
           confPath confWithZmq "tcp://127.0.0.1:28332"
           "__cookie__" ("f00d" ++ newline) []);
    reflexivity.
Defined.

(** X9. A cookie that cannot be read, or that does not hold exactly
    one colon, is passed over in silence: bitcoind's discovery then
    returns what the scan of the configuration text gives, its values
    or the error naming the first key it misses. *)
Theorem cookie_without_single_colon_ignored :
  forall (w : World) (path contents : string) (t : list Event),
    opens w path = true ->
    read_all w path = Ok contents ->
    (forall c, cookieOf w path contents = Some c ->
               countByte ":" c <> 1) ->
    fst (extractBitcoindRPCParams w path t) = bitcoindScan contents.
Proof.
  intros w path contents t Ho Hr Hc.
  rewrite (extractBitcoind_result w path contents t Ho Hr).
  unfold bitcoindScan at 2.
  destruct (FindSubmatch "zmqpubrawblock" contents) eqn:Ez;
    [| reflexivity].
  destruct (cookieOf w path contents) as [c |];
    [| unfold bitcoindScan; rewrite Ez; reflexivity].
  specialize (Hc c eq_refl).
  pose proof (splitByte_length ":" c) as Hl.
  destruct (splitByte ":" c) as [| u [| p [| x l]]];
    try (unfold bitcoindScan; rewrite Ez; reflexivity).
  simpl in Hl. exfalso. apply Hc. congruence.
Qed.

Lemma cookie_without_single_colon_ignored_witness :
  fst (extractBitcoindRPCParams
         (testnetWorld [(confPath, confWithZmq);
                        (cookiePath, "bob:hunter:2")])
         confPath [])
  = bitcoindScan confWithZmq.
Proof.
  apply (cookie_without_single_colon_ignored
           (testnetWorld [(confPath, confWithZmq);
                          (cookiePath, "bob:hunter:2")])
           confPath confWithZmq []).
  - reflexivity.
  - reflexivity.
  - intros c H. vm_compute in H. inversion H. subst. simpl. discriminate.
Defined.

(** ** Files touched by discovery *)

(** X10. Btcd's discovery touches the configuration file only, and
    closes it whenever it opened it, whatever it returns: its events
    are the opening alone when that fails, and the opening, the
    reading and the closing otherwise. *)
Theorem extractBtcd_closes_file :
  forall (w : World) (path : string) (t : list Event),
    snd (extractBtcdRPCParams w path t)
    = (t ++ EvOpen path ::
         (if opens w path then [EvReadAll path; EvClose path] else []))%list.
Proof.
  intros w path t.
  unfold extractBtcdRPCParams, deferClose, os_Open, ioutil_ReadAll, opens.
  unfold_io.
  destruct (String.eqb path ""); simpl; [reflexivity |].
  destruct (open_file w path); simpl; [reflexivity |].
  destruct (read_all w path) as [contents | e]; simpl.
  - destruct (FindSubmatch "rpcuser" contents); simpl.
    + destruct (FindSubmatch "rpcpass" contents); simpl;
        repeat rewrite <- app_assoc; reflexivity.
    + repeat rewrite <- app_assoc; reflexivity.
  - repeat rewrite <- app_assoc; reflexivity.
Qed.

(** X11. Bitcoind's discovery touches the configuration file and the
    cookie, nothing else; it closes the configuration file whenever it
    opened it, whatever it returns, and reads the cookie only once the
    text has been read and holds a ZMQ path. *)
Theorem extractBitcoind_closes_file :
  forall (w : World) (path : string) (t : list Event),
    snd (extractBitcoindRPCParams w path t)
    = (t ++ EvOpen path ::
         (if opens w path
          then EvReadAll path ::
               match read_all w path with
               | Ok contents =>
                   match FindSubmatch "zmqpubrawblock" contents with
                   | Some _ => [EvReadFile (cookiePathOf w path contents)]
                   | None => []
                   end
               | Err _ => []
               end ++ [EvClose path]
          else []))%list.
Proof.
  intros w path t.
  unfold extractBitcoindRPCParams, deferClose, os_Open, ioutil_ReadAll,
    ioutil_ReadFile, opens.
  unfold_io.
  destruct (String.eqb path ""); simpl; [reflexivity |].
  destruct (open_file w path); simpl; [reflexivity |].
  destruct (read_all w path) as [contents | e]; simpl;
    [| repeat rewrite <- app_assoc; reflexivity].
  destruct (FindSubmatch "zmqpubrawblock" contents); simpl;
    [| repeat rewrite <- app_assoc; reflexivity].
  split_outcomes; repeat rewrite <- app_assoc; reflexivity.
Qed.

(** X12. The btcd factory does not touch the certificate file when a
    raw certificate is set; otherwise it opens it, reads it when the
    opening succeeded, and closes it only when the reading succeeded:
    a failed read leaves the file open. *)
Theorem rpcCertOf_file_events :
  forall (w : World) (conf : btcdConfig) (t : list Event),
    snd (rpcCertOf w conf t)
    = (t ++
       if nonEmpty (btcd_RawRPCCert conf) then []
       else EvOpen (btcd_RPCCert conf) ::
            if opens w (btcd_RPCCert conf)
            then EvReadAll (btcd_RPCCert conf) ::
                 match read_all w (btcd_RPCCert conf) with
                 | Ok _ => [EvClose (btcd_RPCCert conf)]
                 | Err _ => []
                 end
            else [])%list.
Proof.
  intros w conf t.
  unfold rpcCertOf, os_Open, ioutil_ReadAll, opens. unfold_io.
  destruct (nonEmpty (btcd_RawRPCCert conf)).
  - destruct (DecodeString (btcd_RawRPCCert conf)); simpl;
      rewrite app_nil_r; reflexivity.
  - destruct (String.eqb (btcd_RPCCert conf) ""); simpl; [reflexivity |].
    destruct (open_file w (btcd_RPCCert conf)); simpl; [reflexivity |].
    destruct (read_all w (btcd_RPCCert conf)); simpl.
    + destruct (close_file w (btcd_RPCCert conf)); simpl;
        repeat rewrite <- app_assoc; reflexivity.
    + repeat rewrite <- app_assoc; reflexivity.
Qed.

(** ** The resolved host, further *)

Lemma containsByte_app_sep sep a b :
  containsByte sep (a ++ String sep b) = true.
Proof.
  induction a as [| c a IH]; simpl.
  - rewrite Ascii.eqb_refl. reflexivity.
  - destruct (Ascii.eqb c sep); [reflexivity | exact IH].
Qed.

Lemma bitcoindHostOf_has_port w conf a t h t' :
  bitcoindHostOf w conf a t = (Ok h, t') -> containsByte ":" h = true.
Proof.
  unfold bitcoindHostOf. unfold_io.
  destruct (containsByte ":" (bitcoind_RPCHost conf)) eqn:E.
  - intros H; inversion H; subst. exact E.
  - destruct (Atoi (rpcPort (activeNetParams w))); [| discriminate].
    destruct (Active (Bitcoin (cfg a)) && RegTest (Bitcoin (cfg a))); simpl.
    + destruct (dial_fails w _); intros H; inversion H; subst;
        apply (containsByte_app_sep ":").
    + intros H; inversion H; subst. apply (containsByte_app_sep ":").
Qed.

(** X13. The host a full-node factory connects to always carries a
    port, and resolving it again changes nothing: given back as the
    configured host, it is used as it stands, for bitcoind without a
    second dial. *)
Theorem resolved_host_is_stable :
  forall (w : World) (a : factoryArgs) (t t' : list Event)
         (bconf bconf' : bitcoindConfig) (sconf sconf' : btcdConfig)
         (h : string),
    bitcoindHostOf w bconf a t = (Ok h, t') ->
    bitcoind_RPCHost bconf' = h ->
    btcd_RPCHost sconf' = btcdHostOf w sconf ->
    containsByte ":" h = true
    /\ containsByte ":" (btcdHostOf w sconf) = true
    /\ (forall t2, bitcoindHostOf w bconf' a t2 = (Ok h, t2))
    /\ btcdHostOf w sconf' = btcdHostOf w sconf.
Proof.
  intros w a t t' bconf bconf' sconf sconf' h Hh Hb Hs.
  pose proof (bitcoindHostOf_has_port _ _ _ _ _ _ Hh) as Hc.
  assert (Hsc : containsByte ":" (btcdHostOf w sconf) = true).
  { unfold btcdHostOf.
    destruct (containsByte ":" (btcd_RPCHost sconf)) eqn:E; [exact E |].
    apply (containsByte_app_sep ":"). }
  repeat split; try assumption.
  - intros t2. unfold bitcoindHostOf. rewrite Hb, Hc. reflexivity.
  - unfold btcdHostOf at 1. rewrite Hs, Hsc. reflexivity.
Qed.

Lemma resolved_host_is_stable_witness :
  containsByte ":" "localhost:18443" = true
  /\ containsByte ":"
       (btcdHostOf (worldWith bitcoinChain regtest [] true None)
          (btcdConfOf "localhost" "alice" "secret" "" "")) = true
  /\ (forall t2,
        bitcoindHostOf (worldWith bitcoinChain regtest [] true None)
          (bitcoindConfOf "localhost:18443" "alice" "secret" "zmq")
          (argsWith (chainConfigOf true false true) inactiveChain) t2
        = (Ok "localhost:18443", t2))
  /\ btcdHostOf (worldWith bitcoinChain regtest [] true None)
       (btcdConfOf "localhost:18334" "alice" "secret" "" "")
     = btcdHostOf (worldWith bitcoinChain regtest [] true None)
         (btcdConfOf "localhost" "alice" "secret" "" "").
Proof.
  apply (resolved_host_is_stable
           (worldWith bitcoinChain regtest [] true None)
           (argsWith (chainConfigOf true false true) inactiveChain)
           [] [EvDial "localhost:18332"]
           (bitcoindConfOf "localhost" "alice" "secret" "zmq")
           (bitcoindConfOf "localhost:18443" "alice" "secret" "zmq")
           (btcdConfOf "localhost" "alice" "secret" "" "")
           (btcdConfOf "localhost:18334" "alice" "secret" "" ""));
    reflexivity.
Defined.

(** X14. When the host has no port and the network's RPC port is not
    a number, the bitcoind factory fails with the conversion's error,
    syntax or range as the text has it, having by then opened no file,
    dialed nobody and built nothing (it has only written to its log);
    btcd appends the same text to its host without looking at it. *)
Theorem bitcoind_port_must_be_numeric :
  forall (w : World) (conf : bitcoindConfig) (sconf : btcdConfig)
         (a : factoryArgs) (t : list Event) (cc0 : chainControl),
    initialControl w a = Ok cc0 ->
    containsByte ":" (bitcoind_RPCHost conf) = false ->
    containsByte ":" (btcd_RPCHost sconf) = false ->
    Atoi (rpcPort (activeNetParams w)) = None ->
    bitcoind_NewChainControlFromConfig w conf a t
    = ((None, None,
        Some ("strconv.Atoi: parsing " ++
              strconv_Quote w (rpcPort (activeNetParams w)) ++ ": " ++
              atoiErrorKind (rpcPort (activeNetParams w)))), t)
    /\ btcdHostOf w sconf
       = btcd_RPCHost sconf ++ ":" ++ rpcPort (activeNetParams w).
Proof.
  intros w conf sconf a t cc0 Hcc Hc Hs Hp.
  unfold bitcoind_NewChainControlFromConfig, bitcoindHostOf, btcdHostOf,
    atoiError.
  unfold_io. rewrite Hcc, Hc, Hs, Hp. split; reflexivity.
Qed.

Lemma bitcoind_port_must_be_numeric_witness :
  bitcoind_NewChainControlFromConfig
    (worldWith bitcoinChain
       {| Name := "testnet3"; rpcPort := "rpc"; CoinType := 1 |}
       [] false None)
    (bitcoindConfOf "localhost" "alice" "secret" "zmq")
    (argsWith (chainConfigOf true false false) inactiveChain) []
  = ((None, None,
      Some ("strconv.Atoi: parsing " ++ (quote ++ "rpc" ++ quote) ++ ": " ++
            "invalid syntax")), [])
  /\ btcdHostOf
       (worldWith bitcoinChain
          {| Name := "testnet3"; rpcPort := "rpc"; CoinType := 1 |}
          [] false None)
       (btcdConfOf "localhost" "alice" "secret" "" "")
     = "localhost" ++ ":" ++ "rpc".
Proof.
  apply (bitcoind_port_must_be_numeric
           (worldWith bitcoinChain
              {| Name := "testnet3"; rpcPort := "rpc"; CoinType := 1 |}
              [] false None)
           (bitcoindConfOf "localhost" "alice" "secret" "zmq")
           (btcdConfOf "localhost" "alice" "secret" "" "")
           (argsWith (chainConfigOf true false false) inactiveChain) []
           (emptyControl (policyOf (chainConfigOf true false false))
              (StaticFeeEstimator 50)));
    reflexivity.
Defined.

(** ** The factories, further *)

(** X15. With a primary chain that is neither bitcoin nor litecoin,
    every factory fails with the error that names the chain, having
    opened no file, made no connection and called no collaborator: it
    has only written the primary chain to its log. *)
Theorem unknown_primary_chain_fails_first :
  forall (w : World) (b : backendConfig) (a : factoryArgs)
         (t : list Event) (code : N),
    PrimaryChain w = otherChain code ->
    NewChainControlFromConfig w b a t
    = ((None, None,
        Some ("Default routing policy for chain " ++
              chainCode_String w (otherChain code) ++ " is unknown")), t).
Proof.
  intros w [conf | conf | conf] a t code H;
    unfold_factories; unfold_io; rewrite H; reflexivity.
Qed.

Lemma unknown_primary_chain_fails_first_witness :
  NewChainControlFromConfig unknownChainWorld
    (NeutrinoBackend neutrinoConf)
    (argsWith (chainConfigOf true false false) inactiveChain) []
  = ((None, None,
      Some "Default routing policy for chain kekcoin is unknown"), []).
Proof.
  apply (unknown_primary_chain_fails_first unknownChainWorld
           (NeutrinoBackend neutrinoConf)
           (argsWith (chainConfigOf true false false) inactiveChain) [] 7%N).
  reflexivity.
Defined.

Ltac settle_run H :=
  split_outcomes; intros H; inversion H; subst; clear H.

(** X16. A factory dials the node itself in one case only, and then
    once: bitcoind, with a known primary chain, a host without port, a
    numeric RPC port and bitcoin on regtest.  Btcd and the light
    client never dial from the factory. *)
Theorem dial_only_as_regtest_probe :
  forall (w : World) (b : backendConfig) (a : factoryArgs)
         (t : list Event),
  exists new : list Event,
    snd (NewChainControlFromConfig w b a t) = (t ++ new)%list
    /\ existsb isDial new = probes w b a
    /\ length (filter isDial new) <= 1.
Proof.
  intros w [conf | conf | conf] a t;
    unfold probes; unfold_factories; unfold_io; simpl.
  - destruct (Active (Bitcoin (cfg a))), (RegTest (Bitcoin (cfg a)));
      simpl; split_outcomes; new_events; simpl;
      (split; [reflexivity | lia]).
  - split_outcomes; new_events; simpl; (split; [reflexivity | lia]).
  - split_outcomes; new_events; simpl; (split; [reflexivity | lia]).
Qed.

(** X17. Only the light client hands out a clean-up function, and
    only when it succeeds: it stops the sync service, then closes the
    index database.  The full-node factories return a nil clean-up
    even when they succeed. *)
Theorem cleanUp_only_from_light_client :
  forall (w : World) (b : backendConfig) (a : factoryArgs)
         (t : list Event),
    snd (fst (fst (NewChainControlFromConfig w b a t)))
    = if isFullNode b then None
      else if isNone (snd (fst (NewChainControlFromConfig w b a t)))
           then Some [EvSvcStop; EvDbClose]
           else None.
Proof.
  intros w [conf | conf | conf] a t;
    unfold_factories; unfold_io; simpl.
  - split_outcomes; reflexivity.
  - split_outcomes; reflexivity.
  - split_outcomes; reflexivity.
Qed.

(** X18. The light-client factory succeeds exactly when the primary
    chain is known and each of its eight fallible steps succeeds; it
    has then made these eleven calls, in this order: directory,
    database, service, its start, notifier, chain view, chain source,
    wallet controller, key ring, wallet, wallet start-up. *)
Theorem neutrino_succeeds_iff_every_step_does :
  forall (w : World) (b : neutrinoConfig) (a : factoryArgs)
         (t : list Event),
    isNone (snd (fst (neutrino_NewChainControlFromConfig w b a t)))
    = neutrinoSucceeds w a
    /\ (neutrinoSucceeds w a = true ->
        snd (neutrino_NewChainControlFromConfig w b a t)
        = (t ++ neutrinoCalls w a)%list).
Proof.
  intros w b a t.
  unfold_factories; unfold neutrinoSucceeds, neutrinoCalls, isNone;
    unfold_io; simpl.
  split_outcomes; split; try reflexivity; try discriminate;
    intros _; repeat rewrite <- app_assoc; reflexivity.
Qed.

(** What a bundle that was returned holds, for the properties below. *)
Lemma factory_success_bundle w b a t t' cc cleanUp :
  NewChainControlFromConfig w b a t = ((Some cc, cleanUp, None), t') ->
  exists (wc : BtcWallet) (lw : LightningWallet),
    signer cc = Some wc /\ msgSigner cc = Some wc /\ chainIO cc = Some wc
    /\ wallet cc = Some lw
    /\ lw_WalletController lw = wc
    /\ lw_Signer lw = Some wc /\ lw_ChainIO lw = Some wc
    /\ lw_SecretKeyRing lw = (wc, CoinType (activeNetParams w))
    /\ lw_Notifier lw = chainNotifier cc
    /\ lw_FeeEstimator lw = feeEstimator cc
    /\ lw_Database lw = chanDB a
    /\ lw_started lw = true
    /\ wc_FeeEstimator (bw_cfg wc)
       = Some (StaticFeeEstimator (defaultStaticFeeRate w))
    /\ routingPolicy cc = policyOf (homeChainConfigOf w a)
    /\ DataDir (bw_cfg wc) = ChainDir (homeChainConfigOf w a)
    /\ lw_DefaultConstraints lw
       = (if chainCode_eqb (PrimaryChain w) litecoinChain
          then defaultLtcChannelConstraints
          else defaultBtcChannelConstraints)
    /\ wc_ChainSource (bw_cfg wc) <> None.
Proof.
  destruct b as [conf | conf | conf];
    unfold_factories; unfold initialWalletConfig, homeChainConfigOf;
    unfold_io; simpl; intros H; revert H;
    destruct (PrimaryChain w) eqn:Hpc; simpl;
    settle_run H; simpl; do 2 eexists;
    repeat split; try reflexivity; discriminate.
Qed.

(** X19. The wallet controller of a returned bundle was configured
    before the estimator was chosen: whatever estimator the bundle
    ends with, live or static, the wallet controller holds the static
    one at the primary chain's default rate, while the lightning
    wallet holds the bundle's. *)
Theorem wallet_controller_keeps_static_estimator :
  forall (w : World) (b : backendConfig) (a : factoryArgs)
         (t t' : list Event) (cc : chainControl) (cleanUp : option CleanUp),
    NewChainControlFromConfig w b a t = ((Some cc, cleanUp, None), t') ->
    exists (wc : BtcWallet) (lw : LightningWallet),
      signer cc = Some wc /\ wallet cc = Some lw
      /\ wc_FeeEstimator (bw_cfg wc)
         = Some (StaticFeeEstimator (defaultStaticFeeRate w))
      /\ lw_FeeEstimator lw = feeEstimator cc.
Proof.
  intros w b a t t' cc cleanUp H.
  destruct (factory_success_bundle _ _ _ _ _ _ _ H) as [wc [lw G]].
  exists wc, lw. tauto.
Qed.

Lemma wallet_controller_keeps_static_estimator_witness :
  exists (cc : chainControl) (wc : BtcWallet) (lw : LightningWallet),
    fst (fst (fst bitcoindTestnetRun)) = Some cc
    /\ signer cc = Some wc /\ wallet cc = Some lw
    /\ wc_FeeEstimator (bw_cfg wc) = Some (StaticFeeEstimator 50)
    /\ lw_FeeEstimator lw = feeEstimator cc.
Proof.
  edestruct (wallet_controller_keeps_static_estimator
               (worldWith bitcoinChain testnet3 [] false None)
               (BitcoindBackend
                  (bitcoindConfOf "localhost" "alice" "secret"
                     "tcp://127.0.0.1:28332"))
               (argsWith (chainConfigOf true false false) inactiveChain) [])
    as [wc [lw G]].
  - cbv. reflexivity.
  - eexists. exists wc, lw. split; [reflexivity | exact G].
Defined.

(** X20. A returned bundle is of one piece: its message signer, its
    signer and its chain I/O are the one wallet controller, which is
    also the controller, the signer, the chain I/O and the key ring's
    wallet of its lightning wallet; that wallet was given the bundle's
    notifier and the caller's channel database, has a chain source,
    and has been started. *)
Theorem bundle_is_consistent :
  forall (w : World) (b : backendConfig) (a : factoryArgs)
         (t t' : list Event) (cc : chainControl) (cleanUp : option CleanUp),
    NewChainControlFromConfig w b a t = ((Some cc, cleanUp, None), t') ->
    exists (wc : BtcWallet) (lw : LightningWallet),
      signer cc = Some wc /\ msgSigner cc = Some wc /\ chainIO cc = Some wc
      /\ wallet cc = Some lw
      /\ lw_WalletController lw = wc
      /\ lw_Signer lw = Some wc /\ lw_ChainIO lw = Some wc
      /\ lw_SecretKeyRing lw = (wc, CoinType (activeNetParams w))
      /\ lw_Notifier lw = chainNotifier cc
      /\ lw_Database lw = chanDB a
      /\ lw_started lw = true
      /\ wc_ChainSource (bw_cfg wc) <> None.
Proof.
  intros w b a t t' cc cleanUp H.
  destruct (factory_success_bundle _ _ _ _ _ _ _ H) as [wc [lw G]].
  exists wc, lw. tauto.
Qed.

Lemma bundle_is_consistent_witness :
  exists (cc : chainControl) (wc : BtcWallet) (lw : LightningWallet),
    fst (fst (fst bitcoindTestnetRun)) = Some cc
    /\ signer cc = Some wc /\ msgSigner cc = Some wc /\ chainIO cc = Some wc
    /\ wallet cc = Some lw
    /\ lw_WalletController lw = wc
    /\ lw_Signer lw = Some wc /\ lw_ChainIO lw = Some wc
    /\ lw_SecretKeyRing lw = (wc, 1%Z)
    /\ lw_Notifier lw = chainNotifier cc
    /\ lw_Database lw = "channel.db"
    /\ lw_started lw = true
    /\ wc_ChainSource (bw_cfg wc) <> None.
Proof.
  edestruct (bundle_is_consistent
               (worldWith bitcoinChain testnet3 [] false None)
               (BitcoindBackend
                  (bitcoindConfOf "localhost" "alice" "secret"
                     "tcp://127.0.0.1:28332"))
               (argsWith (chainConfigOf true false false) inactiveChain) [])
    as [wc [lw G]].
  - cbv. reflexivity.
  - eexists. exists wc, lw. split; [reflexivity | exact G].
Defined.

(** X21. What depends on the chain follows the primary chain, not the
    [Active] flags: the routing policy and the wallet's data directory
    of a returned bundle come from litecoin's configuration when
    litecoin is the primary chain and from bitcoin's otherwise, and
    the channel constraints are the matching defaults. *)
Theorem bundle_follows_primary_chain :
  forall (w : World) (b : backendConfig) (a : factoryArgs)
         (t t' : list Event) (cc : chainControl) (cleanUp : option CleanUp),
    NewChainControlFromConfig w b a t = ((Some cc, cleanUp, None), t') ->
    exists (wc : BtcWallet) (lw : LightningWallet),
      signer cc = Some wc /\ wallet cc = Some lw
      /\ routingPolicy cc = policyOf (homeChainConfigOf w a)
      /\ DataDir (bw_cfg wc) = ChainDir (homeChainConfigOf w a)
      /\ lw_DefaultConstraints lw
         = (if chainCode_eqb (PrimaryChain w) litecoinChain
            then defaultLtcChannelConstraints
            else defaultBtcChannelConstraints).
Proof.
  intros w b a t t' cc cleanUp H.
  destruct (factory_success_bundle _ _ _ _ _ _ _ H) as [wc [lw G]].
  exists wc, lw. tauto.
Qed.

Lemma bundle_follows_primary_chain_witness :
  exists (cc : chainControl) (wc : BtcWallet) (lw : LightningWallet),
    fst (fst (fst (NewChainControlFromConfig litecoinWorld
                     (NeutrinoBackend neutrinoConf)
                     (argsWith (chainConfigOf true false false)
                        (chainConfigOf false false false)) [])))
    = Some cc
    /\ signer cc = Some wc /\ wallet cc = Some lw
    /\ routingPolicy cc = policyOf (chainConfigOf false false false)
    /\ DataDir (bw_cfg wc) = ChainDir (chainConfigOf false false false)
    /\ lw_DefaultConstraints lw = defaultLtcChannelConstraints.
Proof.
  edestruct (bundle_follows_primary_chain litecoinWorld
               (NeutrinoBackend neutrinoConf)
               (argsWith (chainConfigOf true false false)
                  (chainConfigOf false false false)) [])
    as [wc [lw G]].
  - cbv. reflexivity.
  - eexists. exists wc, lw. split; [reflexivity | exact G].
Defined.

(** X22. The bitcoind factory builds everything on one connection: in
    a returned bundle the notifier, the chain view and, when there is
    one, the live estimator hold the same settings (the resolved host,
    the configured user and password, TLS off, HTTP POST mode), the
    notifier and the view the configured ZMQ path, and the wallet's
    chain source the same host, user, password and ZMQ path. *)
Theorem bitcoind_bundle_shares_connection :
  forall (w : World) (conf : bitcoindConfig) (a : factoryArgs)
         (t t' : list Event) (cc : chainControl) (cleanUp : option CleanUp),
    bitcoind_NewChainControlFromConfig w conf a t
    = ((Some cc, cleanUp, None), t') ->
    exists (h : string) (wc : BtcWallet),
      fst (bitcoindHostOf w conf a t) = Ok h
      /\ chainNotifier cc
         = Some (BitcoindNotifier (bitcoindConnConfig conf h)
                   (bitcoind_ZMQPath conf))
      /\ chainView cc
         = Some (BitcoindFilteredChainView (bitcoindConnConfig conf h)
                   (bitcoind_ZMQPath conf))
      /\ signer cc = Some wc
      /\ wc_ChainSource (bw_cfg wc)
         = Some (BitcoindClient h (bitcoind_RPCUser conf)
                   (bitcoind_RPCPass conf) (bitcoind_ZMQPath conf))
      /\ (forall rc, estimatorConfig (feeEstimator cc) = Some rc ->
                     rc = bitcoindConnConfig conf h).
Proof.
  intros w conf a t t' cc cleanUp.
  unfold_factories; unfold initialWalletConfig, bitcoindConnConfig;
    unfold_io; simpl.
  destruct (PrimaryChain w) eqn:Hpc; simpl;
    destruct (Active (Bitcoin (cfg a))), (RegTest (Bitcoin (cfg a)));
    simpl; settle_run H; simpl; do 2 eexists;
    repeat split; try reflexivity;
    intros rc Hrc; inversion Hrc; reflexivity.
Qed.

Lemma bitcoind_bundle_shares_connection_witness :
  exists (cc : chainControl) (h : string) (wc : BtcWallet),
    fst (fst (fst bitcoindTestnetRun)) = Some cc
    /\ h = "localhost:18332"
    /\ chainNotifier cc
       = Some (BitcoindNotifier
                 (bitcoindConnConfig
                    (bitcoindConfOf "localhost" "alice" "secret"
                       "tcp://127.0.0.1:28332") h)
                 "tcp://127.0.0.1:28332")
    /\ signer cc = Some wc
    /\ wc_ChainSource (bw_cfg wc)
       = Some (BitcoindClient h "alice" "secret" "tcp://127.0.0.1:28332").
Proof.
  edestruct (bitcoind_bundle_shares_connection
               (worldWith bitcoinChain testnet3 [] false None)
               (bitcoindConfOf "localhost" "alice" "secret"
                  "tcp://127.0.0.1:28332")
               (argsWith (chainConfigOf true false false) inactiveChain) [])
    as [h [wc [Hh [Hn [Hv [Hs [Hc He]]]]]]].
  - cbv. reflexivity.
  - eexists. exists h, wc.
    split; [reflexivity |].
    split; [vm_compute in Hh; inversion Hh; reflexivity |].
    auto.
Defined.

(** X23. The btcd factory builds everything on one connection: in a
    returned bundle the notifier, the chain view and, when there is
    one, the live estimator hold the same settings (the resolved host,
    the user, the password and the certificate read at the start, the
    websocket endpoint, TLS on), and the wallet's chain source the
    same host, user, password and certificate, with TLS on and twenty
    reconnection attempts. *)
Theorem btcd_bundle_shares_connection :
  forall (w : World) (conf : btcdConfig) (a : factoryArgs)
         (t t' : list Event) (cc : chainControl) (cleanUp : option CleanUp),
    btcd_NewChainControlFromConfig w conf a t
    = ((Some cc, cleanUp, None), t') ->
    exists (certs : string) (wc : BtcWallet),
      fst (rpcCertOf w conf t) = Ok certs
      /\ chainNotifier cc = Some (BtcdNotifier (btcdConnConfig w conf certs))
      /\ chainView cc
         = Some (BtcdFilteredChainView (btcdConnConfig w conf certs))
      /\ signer cc = Some wc
      /\ wc_ChainSource (bw_cfg wc)
         = Some (RPCClient (btcdHostOf w conf) (btcd_RPCUser conf)
                   (btcd_RPCPass conf) certs false 20)
      /\ (forall rc, estimatorConfig (feeEstimator cc) = Some rc ->
                     rc = btcdConnConfig w conf certs).
Proof.
  intros w conf a t t' cc cleanUp.
  unfold_factories; unfold initialWalletConfig, btcdConnConfig;
    unfold_io; simpl.
  destruct (PrimaryChain w) eqn:Hpc; simpl;
    settle_run H; simpl; do 2 eexists;
    repeat split; try reflexivity;
    intros rc Hrc; inversion Hrc; reflexivity.
Qed.

Lemma btcd_bundle_shares_connection_witness :
  exists (cc : chainControl) (wc : BtcWallet),
    fst (fst (fst (btcd_NewChainControlFromConfig
                     (testnetWorld [(certPath, "cert")])
                     (btcdConfOf "localhost" "alice" "secret" certPath "")
                     (argsWith (chainConfigOf true false false)
                        inactiveChain) [])))
    = Some cc
    /\ signer cc = Some wc
    /\ wc_ChainSource (bw_cfg wc)
       = Some (RPCClient "localhost:18334" "alice" "secret" "cert" false 20).
Proof.
  edestruct (btcd_bundle_shares_connection
               (testnetWorld [(certPath, "cert")])
               (btcdConfOf "localhost" "alice" "secret" certPath "")
               (argsWith (chainConfigOf true false false) inactiveChain) [])
    as [certs [wc [Hc [Hn [Hv [Hs [Hsrc He]]]]]]].
  - cbv. reflexivity.
  - vm_compute in Hc. inversion Hc. subst certs.
    eexists. exists wc. split; [reflexivity |]. split; [exact Hs |].
    exact Hsrc.
Defined.

(** X24. Every factory builds in one order and stops at the first
    failure: the notifier comes before the chain view, the view before
    the chain source, the source before the wallet controller, the
    controller before the lightning wallet and the wallet before its
    start-up; and when the constructor of the notifier, of the view,
    of the wallet controller or of the wallet fails, the step after
    it is never attempted. *)
Theorem construction_order :
  forall (w : World) (b : backendConfig) (a : factoryArgs)
         (t : list Event),
  exists new : list Event,
    snd (NewChainControlFromConfig w b a t) = (t ++ new)%list
    /\ precedes EvNotifierNew EvChainViewNew new = true
    /\ precedes EvChainViewNew EvChainSourceNew new = true
    /\ precedes EvChainSourceNew EvWalletControllerNew new = true
    /\ precedes EvWalletControllerNew EvLightningWalletNew new = true
    /\ precedes EvLightningWalletNew EvWalletStartup new = true
    /\ (notifier_New_err w <> None -> occurs EvChainViewNew new = false)
    /\ (chainView_New_err w <> None -> occurs EvChainSourceNew new = false)
    /\ (btcwallet_New_err w <> None ->
        occurs EvLightningWalletNew new = false)
    /\ (NewLightningWallet_err w <> None ->
        occurs EvWalletStartup new = false).
Proof.
  intros w [conf | conf | conf] a t;
    unfold_factories; unfold_io; simpl.
  - destruct (Active (Bitcoin (cfg a))), (RegTest (Bitcoin (cfg a)));
      simpl; split_outcomes; new_events; simpl;
      repeat split; auto; congruence.
  - split_outcomes; new_events; simpl; repeat split; auto; congruence.
  - split_outcomes; new_events; simpl; repeat split; auto; congruence.
Qed.

(** ** The light client's name resolver *)

Lemma NameResolver_loop {IP} (ParseIP : string -> option IP) addrs acc :
  fold_left
    (fun ips strIP =>
       match ParseIP strIP with
       | None => ips
       | Some ip => (ips ++ [ip])%list
       end) addrs acc
  = (acc ++ flat_map (fun strIP =>
                        match ParseIP strIP with
                        | None => []
                        | Some ip => [ip]
                        end) addrs)%list.
Proof.
  revert acc. induction addrs as [| s addrs IH]; intros acc; simpl.
  - rewrite app_nil_r. reflexivity.
  - rewrite IH. destruct (ParseIP s); simpl.
    + rewrite <- app_assoc. reflexivity.
    + reflexivity.
Qed.

Lemma flat_map_option_length {A B} (f : A -> option B) l :
  length (flat_map (fun x => match f x with
                             | None => []
                             | Some y => [y]
                             end) l) <= length l.
Proof.
  induction l as [| x l IH]; simpl; [lia |].
  rewrite length_app. destruct (f x); simpl; lia.
Qed.

(** X25. The name resolver handed to the light client fails only when
    the lookup fails, with the lookup's error; otherwise it returns
    the addresses that parse as IPs, each as parsed and no other,
    never more than the lookup gave, and an empty list rather than an
    error when none parses. *)
Theorem NameResolver_keeps_parsable_addresses :
  forall (IP : Type) (LookupHost : string -> res (list string))
         (ParseIP : string -> option IP) (host : string),
    match LookupHost host with
    | Err err => NameResolver IP LookupHost ParseIP host = Err err
    | Ok addrs =>
        exists ips : list IP,
          NameResolver IP LookupHost ParseIP host = Ok ips
          /\ length ips <= length addrs
          /\ (forall ip, In ip ips <->
                         exists strIP, In strIP addrs
                                       /\ ParseIP strIP = Some ip)
          /\ ((forall strIP, In strIP addrs -> ParseIP strIP = None) ->
              ips = [])
    end.
Proof.
  intros IP LookupHost ParseIP host. unfold NameResolver.
  destruct (LookupHost host) as [addrs | err]; [| reflexivity].
  eexists. split; [reflexivity |].
  rewrite NameResolver_loop. simpl.
  split; [apply flat_map_option_length |]. split.
  - intros ip. rewrite in_flat_map. split.
    + intros [s [Hs Hip]]. exists s. split; [exact Hs |].
      destruct (ParseIP s) as [ip' |]; simpl in Hip; [| contradiction].
      destruct Hip as [-> | []]. reflexivity.
    + intros [s [Hs Hip]]. exists s. split; [exact Hs |].
      rewrite Hip. simpl. auto.
  - intros Hnone. induction addrs as [| s addrs IH]; [reflexivity |].
    simpl. rewrite (Hnone s) by (simpl; auto). simpl.
    apply IH. intros s' Hs'. apply Hnone. simpl; auto.
Qed.

(** ** Discovery through ParseRPCParams *)

(** X26. With neither user nor password set and off simnet, btcd's
    [ParseRPCParams] reads [btcd.conf] (or [ltcd.conf] for litecoin)
    in the configured directory; when that file is made of
    well-formed [key=value] lines it returns without error and sets
    the user to the value of the first [rpcuser] line and the password
    to that of the first [rpcpass] line, leaving every other field as
    it was. *)
Theorem btcd_ParseRPCParams_discovers :
  forall (w : World) (conf : btcdConfig) (cConfig : chainConfig)
         (net : chainCode) (funcName : string) (t : list Event)
         (l : list (string * string)) (u p : string),
    someSet (BtcdBackend conf) = false ->
    SimNet cConfig = false ->
    opens w (btcdConfFile w conf net) = true ->
    read_all w (btcdConfFile w conf net) = Ok (renderConf l) ->
    forallb wellFormedSetting l = true ->
    lookupFirst "rpcuser" l = Some u ->
    lookupFirst "rpcpass" l = Some p ->
    fst (btcd_ParseRPCParams w conf cConfig net funcName t)
    = ({| btcd_Dir := btcd_Dir conf;
          btcd_RPCHost := btcd_RPCHost conf;
          btcd_RPCUser := u;
          btcd_RPCPass := p;
          btcd_RPCCert := btcd_RPCCert conf;
          btcd_RawRPCCert := btcd_RawRPCCert conf |}, None).
Proof.
  intros w conf cConfig net funcName t l u p Hs Hsim Ho Hr Hl Hu Hp.
  unfold someSet, requiredFields in Hs. simpl in Hs.
  unfold opens in Ho. apply andb_true_iff in Ho. destruct Ho as [Hne Ho].
  apply negb_true_iff, String.eqb_neq in Hne.
  destruct (open_file w (btcdConfFile w conf net)) eqn:Eo; [discriminate |].
  unfold btcd_ParseRPCParams.
  destruct (nonEmpty (btcd_RPCUser conf)); [discriminate |].
  destruct (nonEmpty (btcd_RPCPass conf)); [discriminate |].
  simpl.
  assert (G : forall t0,
             fst (extractBtcdRPCParams w (btcdConfFile w conf net) t0)
             = Ok (u, p))
    by (intros t0; eapply extractBtcd_user_and_password; eassumption).
  unfold btcdConfFile in G.
  destruct net; rewrite Hsim; unfold bind, emit, ret;
    match goal with
    | |- context [extractBtcdRPCParams ?w ?f ?t0] =>
        let E := fresh "E" in
        destruct (extractBtcdRPCParams w f t0) as [r t1] eqn:E;
        assert (Hr' : r = Ok (u, p))
          by (change r with (fst (r, t1)); rewrite <- E; apply G)
    end; subst r; reflexivity.
Qed.

Lemma btcd_ParseRPCParams_discovers_witness :
  fst (btcd_ParseRPCParams
         (testnetWorld
            [(btcdConfPath,
              renderConf [("rpcuser", "alice"); ("rpcpass", "secret")])])
         (btcdConfOf "localhost" "" "" certPath "")
         (chainConfigOf true false false) bitcoinChain "loadConfig" [])
  = (btcdConfOf "localhost" "alice" "secret" certPath "", None).
Proof.
  apply (btcd_ParseRPCParams_discovers
           (testnetWorld
              [(btcdConfPath,
                renderConf [("rpcuser", "alice"); ("rpcpass", "secret")])])
           (btcdConfOf "localhost" "" "" certPath "")
           (chainConfigOf true false false) bitcoinChain "loadConfig" []
           [("rpcuser", "alice"); ("rpcpass", "secret")]);
    reflexivity.
Defined.

(** X27. With no credential set and off simnet, bitcoind's
    [ParseRPCParams] reads [bitcoin.conf] (or [litecoin.conf] for
    litecoin) in the configured directory; when that file is made of
    well-formed [key=value] lines and no cookie can be read, it
    returns without error and sets user, password and ZMQ path to the
    values of the first [rpcuser], [rpcpassword] and [zmqpubrawblock]
    lines, leaving directory and host as they were. *)
Theorem bitcoind_ParseRPCParams_discovers :
  forall (w : World) (conf : bitcoindConfig) (cConfig : chainConfig)
         (net : chainCode) (funcName : string) (t : list Event)
         (l : list (string * string)) (u p zmq : string),
    someSet (BitcoindBackend conf) = false ->
    SimNet cConfig = false ->
    opens w (bitcoindConfFile w conf net) = true ->
    read_all w (bitcoindConfFile w conf net) = Ok (renderConf l) ->
    forallb wellFormedSetting l = true ->
    lookupFirst "rpcuser" l = Some u ->
    lookupFirst "rpcpassword" l = Some p ->
    lookupFirst "zmqpubrawblock" l = Some zmq ->
    cookieOf w (bitcoindConfFile w conf net) (renderConf l) = None ->
    fst (bitcoind_ParseRPCParams w conf cConfig net funcName t)
    = ({| bitcoind_Dir := bitcoind_Dir conf;
          bitcoind_RPCHost := bitcoind_RPCHost conf;
          bitcoind_RPCUser := u;
          bitcoind_RPCPass := p;
          bitcoind_ZMQPath := zmq |}, None).
Proof.
  intros w conf cConfig net funcName t l u p zmq
         Hs Hsim Ho Hr Hl Hu Hp Hz Hc.
  unfold someSet, requiredFields in Hs. simpl in Hs.
  assert (G : forall t0,
             fst (extractBitcoindRPCParams w (bitcoindConfFile w conf net) t0)
             = Ok (u, p, zmq)).
  { intros t0.
    rewrite (extractBitcoind_result w _ (renderConf l) t0 Ho Hr).
    unfold bitcoindScan.
    rewrite !FindSubmatch_renderConf by (exact Hl || reflexivity).
    rewrite Hz, Hc, Hu, Hp. reflexivity. }
  unfold bitcoind_ParseRPCParams.
  destruct (nonEmpty (bitcoind_RPCUser conf)); [discriminate |].
  destruct (nonEmpty (bitcoind_RPCPass conf)); [discriminate |].
  destruct (nonEmpty (bitcoind_ZMQPath conf)); [discriminate |].
  simpl. unfold bitcoindConfFile in G.
  destruct net; rewrite Hsim; unfold bind, emit, ret;
    match goal with
    | |- context [extractBitcoindRPCParams ?w ?f ?t0] =>
        let E := fresh "E" in
        destruct (extractBitcoindRPCParams w f t0) as [r t1] eqn:E;
        assert (Hr' : r = Ok (u, p, zmq))
          by (change r with (fst (r, t1)); rewrite <- E; apply G)
    end; subst r; reflexivity.
Qed.

Lemma bitcoind_ParseRPCParams_discovers_witness :
  fst (bitcoind_ParseRPCParams
         (testnetWorld [(confPath, confWithZmq)])
         (bitcoindConfOf "localhost" "" "" "")
         (chainConfigOf true false false) bitcoinChain "loadConfig" [])
  = (bitcoindConfOf "localhost" "alice" "secret" "tcp://127.0.0.1:28332",
     None).
Proof.
  apply (bitcoind_ParseRPCParams_discovers
           (testnetWorld [(confPath, confWithZmq)])
           (bitcoindConfOf "localhost" "" "" "")
           (chainConfigOf true false false) bitcoinChain "loadConfig" []
           [("server", "1"); ("rpcuser", "alice");
            ("rpcpassword", "secret");
            ("zmqpubrawblock", "tcp://127.0.0.1:28332")]);
    reflexivity.
Defined.
